(** * Salary counter: the earnings-accrual engine of [SalaryCounter]

    A shallow embedding of the arithmetic helpers of the React component
    in [src/salaryCounter.js] (the second, [useLocalStorage] version of the
    component: [getWorkingHoursSoFarToday], [getDailyWorkingHours],
    [getWorkingHoursSoFarThisMonth], [getTotalWorkingHoursThisMonth],
    [getTotalWorkingDaysPerYear], [calculateDailyEarnings],
    [calculateEarnings], [isCurrentlyInWorkHours] and the per-second rate
    computed in the render body), followed by the properties the
    specification states about them.

    Modelling conventions.
    - A JavaScript number is a [num]: an exact rational, or one of the three
      non-finite values [PInf], [NInf], [NaN].  Division by zero, the
      propagation of [NaN] and the clamping of infinities by [Math.min] /
      [Math.max] follow IEEE 754; rounding and the sign of zero are not
      modelled.
    - A [Date] is its time value: an integer count of milliseconds on the
      local wall clock.  The getters and the multi-argument constructor
      follow ECMAScript ([Day], [WeekDay], [MakeDay], [MakeTime],
      [MakeDate], the 0..99 year rule); the local time line is taken to be
      uniform (no daylight-saving jumps) and unbounded (no [TimeClip]).
    - The component reads [new Date()] inside every helper; one computation
      pass is modelled with a single clock reading [now] handed to each of
      them.
    - Quantities the code only ever computes on integers (the hours of the
      schedule, day counts, time values) are in [Z]; they are injected into
      [num] where the code mixes them with fractional values. *)

From Stdlib Require Import String ZArith QArith Qround Lia Lqa List Bool.
Import ListNotations.

(** ** JavaScript numbers *)

Module JSNum.

Inductive num : Type :=
| Fin (q : Q)
| PInf
| NInf
| NaN.

Definition ofZ (z : Z) : num := Fin (inject_Z z).

(** Sign tests on rationals. *)
Definition Qzero (q : Q) : bool := Qeq_bool q 0.
Definition Qpos (q : Q) : bool := negb (Qle_bool q 0).
Definition Qltb (a b : Q) : bool := negb (Qle_bool b a).

(** The infinity of the given sign. *)
Definition signedInf (positive : bool) : num := if positive then PInf else NInf.

Definition nadd (a b : num) : num :=
  match a, b with
  | NaN, _ | _, NaN => NaN
  | PInf, NInf | NInf, PInf => NaN
  | PInf, _ | _, PInf => PInf
  | NInf, _ | _, NInf => NInf
  | Fin x, Fin y => Fin (x + y)
  end.

Definition nmul (a b : num) : num :=
  match a, b with
  | NaN, _ | _, NaN => NaN
  | Fin x, Fin y => Fin (x * y)
  | Fin x, PInf | PInf, Fin x =>
      if Qzero x then NaN else signedInf (Qpos x)
  | Fin x, NInf | NInf, Fin x =>
      if Qzero x then NaN else signedInf (negb (Qpos x))
  | PInf, PInf | NInf, NInf => PInf
  | PInf, NInf | NInf, PInf => NInf
  end.

Definition ndiv (a b : num) : num :=
  match a, b with
  | NaN, _ | _, NaN => NaN
  | Fin x, Fin y =>
      if Qzero y then (if Qzero x then NaN else signedInf (Qpos x))
      else Fin (x / y)
  | Fin _, (PInf | NInf) => Fin 0
  | (PInf | NInf), (PInf | NInf) => NaN
  | PInf, Fin y => signedInf (Qle_bool 0 y)
  | NInf, Fin y => signedInf (negb (Qle_bool 0 y))
  end.

(** [Math.max] and [Math.min]: [NaN] if an argument is [NaN]. *)
Definition nmax (a b : num) : num :=
  match a, b with
  | NaN, _ | _, NaN => NaN
  | PInf, _ | _, PInf => PInf
  | NInf, x | x, NInf => x
  | Fin x, Fin y => Fin (if Qle_bool x y then y else x)
  end.

Definition nmin (a b : num) : num :=
  match a, b with
  | NaN, _ | _, NaN => NaN
  | NInf, _ | _, NInf => NInf
  | PInf, x | x, PInf => x
  | Fin x, Fin y => Fin (if Qle_bool x y then x else y)
  end.

(** What [Math.max(0, Math.min(1, x))] computes on a finite [x]. *)
Definition clampQ (x : Q) : Q :=
  let m := if Qle_bool 1 x then 1%Q else x in
  if Qle_bool 0 m then m else 0%Q.

(** [a < b] on numbers: false as soon as an argument is [NaN]. *)
Definition nlt (a b : num) : bool :=
  match a, b with
  | NaN, _ | _, NaN => false
  | Fin x, Fin y => Qltb x y
  | NInf, (Fin _ | PInf) => true
  | Fin _, PInf => true
  | _, _ => false
  end.

(** [a >= b] on numbers: false as soon as an argument is [NaN]. *)
Definition nge (a b : num) : bool :=
  match a, b with
  | NaN, _ | _, NaN => false
  | _, _ => negb (nlt a b)
  end.

(** The number is neither [NaN] nor an infinity. *)
Definition isFinite (a : num) : bool :=
  match a with Fin _ => true | _ => false end.

(** The rational a finite number stands for (0 for the others). *)
Definition val (a : num) : Q :=
  match a with Fin x => x | _ => 0 end.

(** [evalsTo a q]: [a] is finite and its value is [q]. *)
Definition evalsTo (a : num) (q : Q) : Prop :=
  match a with Fin x => x == q | _ => False end.

End JSNum.

(** ** JavaScript dates *)

Module JSDate.

Open Scope Z_scope.

Definition msPerSecond : Z := 1000.
Definition msPerMinute : Z := 60000.
Definition msPerHour : Z := 3600000.
Definition msPerDay : Z := 86400000.

(** Day number and time within the day of a time value. *)
Definition Day (t : Z) : Z := t / msPerDay.
Definition TimeWithinDay (t : Z) : Z := t mod msPerDay.

(** Proleptic Gregorian calendar: the civil date (year, month 1..12,
    day 1..31) of a day number counted from 1970-01-01, and back. *)
Definition civil_from_days (z : Z) : Z * Z * Z :=
  let z := z + 719468 in
  let era := z / 146097 in
  let doe := z - era * 146097 in
  let yoe := (doe - doe / 1460 + doe / 36524 - doe / 146096) / 365 in
  let y := yoe + era * 400 in
  let doy := doe - (365 * yoe + yoe / 4 - yoe / 100) in
  let mp := (5 * doy + 2) / 153 in
  let d := doy - (153 * mp + 2) / 5 + 1 in
  let m := if mp <? 10 then mp + 3 else mp - 9 in
  (if m <=? 2 then y + 1 else y, m, d).

Definition days_from_civil (y m d : Z) : Z :=
  let y := if m <=? 2 then y - 1 else y in
  let era := y / 400 in
  let yoe := y - era * 400 in
  let doy := (153 * (if 2 <? m then m - 3 else m + 9) + 2) / 5 + d - 1 in
  let doe := yoe * 365 + yoe / 4 - yoe / 100 + doy in
  era * 146097 + doe - 719468.

(** The getters of a [Date] with time value [t]. *)
Definition getFullYear (t : Z) : Z := fst (fst (civil_from_days (Day t))).
Definition getMonth (t : Z) : Z := snd (fst (civil_from_days (Day t))) - 1.
Definition getDate (t : Z) : Z := snd (civil_from_days (Day t)).
Definition getDay (t : Z) : Z := (Day t + 4) mod 7.
Definition getHours (t : Z) : Z := (t / msPerHour) mod 24.
Definition getMinutes (t : Z) : Z := (t / msPerMinute) mod 60.

(** Years 0..99 given to the constructor mean 1900..1999. *)
Definition MakeFullYear (year : Z) : Z :=
  if (0 <=? year) && (year <=? 99) then 1900 + year else year.

Definition MakeDay (year month date : Z) : Z :=
  let ym := year + month / 12 in
  let mn := month mod 12 in
  days_from_civil ym (mn + 1) 1 + date - 1.

Definition MakeTime (hour min sec ms : Z) : Z :=
  hour * msPerHour + min * msPerMinute + sec * msPerSecond + ms.

Definition MakeDate (day time : Z) : Z := day * msPerDay + time.

(** [new Date(year, month, date, hours, minutes, seconds)]. *)
Definition newDate (year month date hours minutes seconds : Z) : Z :=
  MakeDate (MakeDay (MakeFullYear year) month date)
           (MakeTime hours minutes seconds 0).

(** [new Date(year, month, date)]. *)
Definition newDay (year month date : Z) : Z := newDate year month date 0 0 0.

End JSDate.

(** ** The component's state and helpers *)

Module Engine.

Import JSNum JSDate.
Open Scope Z_scope.

Inductive Currency : Type := USD | GBP | EUR | JPY.

(** The settings the component keeps: [dayToggles] (0 = Sunday .. 6 =
    Saturday; [dayToggles s day] is [!!dayToggles[day]], so a missing key
    reads as off), [annualSalary] (what [parseFloat] gave, with [NaN] replaced
    by 0), [startHour] and [endHour] (what [parseInt] gave, with [NaN]
    replaced by 0) and [currency]. *)
Record Schedule : Type := mkSchedule {
  dayToggles : Z -> bool;
  annualSalary : Q;
  startHour : Z;
  endHour : Z;
  currency : Currency
}.

(** The initial state: Monday to Friday, 10 to 18, 30000, pounds. *)
Definition defaultToggles (day : Z) : bool := (1 <=? day) && (day <=? 5).
Definition defaultSchedule : Schedule :=
  mkSchedule defaultToggles 30000 10 18 GBP.

(** The days [1 .. n] a [for (let day = 1; day <= n; day++)] loop visits. *)
Definition daysUpTo (n : Z) : list Z := map Z.of_nat (seq 1 (Z.to_nat n)).

(** The days [0 .. 6] of [for (let day = 0; day < 7; day++)]. *)
Definition weekDays : list Z := map Z.of_nat (seq 0 7).

Section Helpers.

Variable s : Schedule.
Variable now : Z.

Definition isDayEnabled (date : Z) : bool := dayToggles s (getDay date).

(** [today] as every helper builds it: midnight of the clock reading. *)
Definition today : Z := newDay (getFullYear now) (getMonth now) (getDate now).

Definition getDailyWorkingHours : Z := endHour s - startHour s.

(** [msSinceStart / 1000 / 3600]. *)
Definition hoursSince (startOfWork : Z) : num :=
  ndiv (ndiv (ofZ (now - startOfWork)) (ofZ 1000)) (ofZ 3600).

Definition getWorkingHoursSoFarToday : num :=
  if negb (isDayEnabled today) then ofZ 0
  else
    let startOfWork :=
      newDate (getFullYear today) (getMonth today) (getDate today)
              (startHour s) 0 0 in
    let endOfWork :=
      newDate (getFullYear today) (getMonth today) (getDate today)
              (endHour s) 0 0 in
    if now <? startOfWork then ofZ 0
    else if now >? endOfWork then ofZ (endHour s - startHour s)
    else hoursSince startOfWork.

(** One iteration of the loop of [getWorkingHoursSoFarThisMonth]. *)
Definition soFarStep (year month : Z) (totalHours : num) (day : Z) : num :=
  let currentDayDate := newDay year month day in
  if negb (isDayEnabled currentDayDate) then totalHours
  else
    let dailyHours := endHour s - startHour s in
    if day <? getDate now then nadd totalHours (ofZ dailyHours)
    else if day =? getDate now then
      let startOfWork := newDate year month day (startHour s) 0 0 in
      let endOfWork := newDate year month day (endHour s) 0 0 in
      if now <? startOfWork then totalHours
      else if now >? endOfWork then nadd totalHours (ofZ dailyHours)
      else nadd totalHours (hoursSince startOfWork)
    else totalHours.

Definition getWorkingHoursSoFarThisMonth : num :=
  let year := getFullYear now in
  let month := getMonth now in
  fold_left (soFarStep year month) (daysUpTo (getDate now)) (ofZ 0).

(** [daysInMonth]: the date of the last millisecond before next month. *)
Definition daysInMonth : Z :=
  let startOfNextMonth := newDay (getFullYear now) (getMonth now + 1) 1 in
  let lastDayOfMonth := startOfNextMonth - 1 in
  getDate lastDayOfMonth.

Definition totalStep (year month : Z) (workingHours : Z) (day : Z) : Z :=
  let currentDayDate := newDay year month day in
  if isDayEnabled currentDayDate
  then workingHours + (endHour s - startHour s)
  else workingHours.

Definition getTotalWorkingHoursThisMonth : Z :=
  let year := getFullYear now in
  let month := getMonth now in
  fold_left (totalStep year month) (daysUpTo daysInMonth) 0.

Definition getTotalWorkingDaysPerYear : Z :=
  let workingDays :=
    fold_left (fun workingDays day =>
                 if dayToggles s day then workingDays + 1 else workingDays)
              weekDays 0 in
  workingDays * 52.

(** [Math.max(0, Math.min(1, x))]. *)
Definition clamp01 (x : num) : num := nmax (ofZ 0) (nmin (ofZ 1) x).

Definition calculateDailyEarnings (annual : Q) : num :=
  if negb (isDayEnabled today) then ofZ 0
  else
    let totalWorkingDaysPerYear := getTotalWorkingDaysPerYear in
    let dailyRate :=
      if 0 <? totalWorkingDaysPerYear
      then ndiv (Fin annual) (ofZ totalWorkingDaysPerYear)
      else ofZ 0 in
    let totalDailyWorkingHours := getDailyWorkingHours in
    let elapsedHours := getWorkingHoursSoFarToday in
    if totalDailyWorkingHours =? 0 then ofZ 0
    else
      let fraction := clamp01 (ndiv elapsedHours (ofZ totalDailyWorkingHours)) in
      nmul dailyRate fraction.

Definition calculateEarnings (annual : Q) : num :=
  let monthly := ndiv (Fin annual) (ofZ 12) in
  let totalWorkingHours := getTotalWorkingHoursThisMonth in
  let elapsedHours := getWorkingHoursSoFarThisMonth in
  if totalWorkingHours =? 0 then ofZ 0
  else
    let fraction := clamp01 (ndiv elapsedHours (ofZ totalWorkingHours)) in
    nmul monthly fraction.

Definition isCurrentlyInWorkHours : bool :=
  if negb (isDayEnabled today) then false
  else
    let currentHour := getHours now in
    let currentMinute := getMinutes now in
    let currentTimeInHours :=
      nadd (ofZ currentHour) (ndiv (ofZ currentMinute) (ofZ 60)) in
    nge currentTimeInHours (ofZ (startHour s))
    && nlt currentTimeInHours (ofZ (endHour s)).

(** The render body: [monthlySalaryRaw] and [earnedPerSecond]. *)
Definition monthlySalaryRaw : num := ndiv (Fin (annualSalary s)) (ofZ 12).

Definition earnedPerSecond : num :=
  let totalWorkHours := getTotalWorkingHoursThisMonth in
  let totalWorkSeconds := totalWorkHours * 3600 in
  if 0 <? totalWorkSeconds
  then ndiv monthlySalaryRaw (ofZ totalWorkSeconds)
  else ofZ 0.

End Helpers.

End Engine.

(** ** The quantities of the specification *)

Module Spec.

Import JSNum JSDate Engine.
Open Scope Z_scope.

Section Quantities.

Variable s : Schedule.
Variable now : Z.

(** The start and end boundaries of today's work window. *)
Definition startBoundary : Z := today now + startHour s * msPerHour.
Definition endBoundary : Z := today now + endHour s * msPerHour.

(** The milliseconds of work elapsed today: none on a day off or before the
    start boundary, the whole window after the end boundary, the time since
    the start boundary in between. *)
Definition elapsedMsToday : Z :=
  if negb (isDayEnabled s (today now)) then 0
  else if now <? startBoundary then 0
  else if now >? endBoundary then (endHour s - startHour s) * msPerHour
  else now - startBoundary.

(** The clock reading as fractional hours of the day: hour + minute/60. *)
Definition timeOfDayHours : Q :=
  (inject_Z (getHours now) + inject_Z (getMinutes now) / 60)%Q.

(** The number of weekdays flagged on. *)
Definition workingDaysPerWeek : Z :=
  Z.of_nat (length (filter (dayToggles s) weekDays)).

(** The number of working days in the month of the clock reading. *)
Definition workingDaysThisMonth : Z :=
  Z.of_nat (length (filter
    (fun day => isDayEnabled s (newDay (getFullYear now) (getMonth now) day))
    (daysUpTo (daysInMonth now)))).

(** The pay of one working day: the yearly salary over the working days
    of the year, 0 when there are none. *)
Definition dailyRate (annual : Q) : Q :=
  if 0 <? getTotalWorkingDaysPerYear s
  then (annual / inject_Z (getTotalWorkingDaysPerYear s))%Q
  else 0%Q.

(** [monthlyFraction], in the words of section 4.1 of the specification:
    elapsed over total working hours of the month, clamped to [0,1]; 0 if
    the denominator is 0. *)
Definition monthlyFraction : num :=
  if getTotalWorkingHoursThisMonth s now =? 0 then ofZ 0
  else clamp01 (ndiv (getWorkingHoursSoFarThisMonth s now)
                     (ofZ (getTotalWorkingHoursThisMonth s now))).

(** [dailyFraction], in the words of section 4.1: elapsed over daily working
    hours, clamped to [0,1]; 0 if the denominator is 0 or today is not a
    working day. *)
Definition dailyFraction : num :=
  if (getDailyWorkingHours s =? 0) || negb (isDayEnabled s (today now))
  then ofZ 0
  else clamp01 (ndiv (getWorkingHoursSoFarToday s now)
                     (ofZ (getDailyWorkingHours s))).

(** What one day of the month adds to the hours elapsed so far: nothing for
    a day toggled off, the full daily hours for a day before today, the
    hours elapsed today for today itself. *)
Definition dayContribution (day : Z) : Q :=
  if negb (isDayEnabled s (newDay (getFullYear now) (getMonth now) day))
  then 0%Q
  else if day <? getDate now then inject_Z (getDailyWorkingHours s)
  else val (getWorkingHoursSoFarToday s now).

Definition Qsum (l : list Q) : Q := fold_right Qplus 0%Q l.

(** [elapsedHoursThisMonth]: the contributions of the days 1 .. today. *)
Definition elapsedHoursThisMonth : Q :=
  Qsum (map dayContribution (daysUpTo (getDate now))).

End Quantities.

(** Schedules of the scenarios. *)

(** Monday to Friday on, Saturday and Sunday off. *)
Definition monToFri (s : Schedule) : Prop :=
  forall day, 0 <= day < 7 -> dayToggles s day = defaultToggles day.

(** All seven days off. *)
Definition allDaysOff (s : Schedule) : Prop :=
  forall day, 0 <= day < 7 -> dayToggles s day = false.

(** The clock reading is not in the years 0..99, which the [Date]
    constructor would read as 1900..1999. *)
Definition plainYear (now : Z) : Prop :=
  getFullYear now < 0 \/ 99 < getFullYear now.

(** Concrete data: the clock reading of a calendar date (month 1..12) and
    time, Wednesday 2025-09-03 and Sunday 2025-09-07, and two further
    schedules. *)
Definition clockAt (y m d hours minutes : Z) : Z :=
  days_from_civil y m d * msPerDay + hours * msPerHour + minutes * msPerMinute.

Definition wednesdayAt (hours : Z) : Z := clockAt 2025 9 3 hours 0.
Definition sundayAt (hours : Z) : Z := clockAt 2025 9 7 hours 0.

Definition invertedSchedule : Schedule :=
  mkSchedule defaultToggles 30000 18 10 GBP.

Definition idleSchedule : Schedule :=
  mkSchedule (fun _ => false) 30000 10 18 GBP.

End Spec.

(** ** The render body, the handlers and the formatter *)

Module View.

Import JSNum JSDate Engine.
Open Scope Z_scope.

(** The number of days of the calendar month [m] (1..12) of year [y]: from
    its first day to the first day of the next month. *)
Definition monthLength (y m : Z) : Z :=
  days_from_civil (y + m / 12) (m mod 12 + 1) 1 - days_from_civil y m 1.

(** [handleDayToggle]: the new flags [{...prev, [dayIndex]: !prev[dayIndex]}]. *)
Definition handleDayToggle (prev : Z -> bool) (dayIndex : Z) : Z -> bool :=
  fun day => if day =? dayIndex then negb (prev dayIndex) else prev day.

(** [setDayToggles]: the settings with new flags. *)
Definition setDayToggles (s : Schedule) (toggles : Z -> bool) : Schedule :=
  mkSchedule toggles (annualSalary s) (startHour s) (endHour s) (currency s).

Definition monthNames : list string :=
  ["January"; "February"; "March"; "April"; "May"; "June";
   "July"; "August"; "September"; "October"; "November"; "December"]%string.

(** [monthNames[currentMonth]]: [None] stands for [undefined]. *)
Definition currentMonthName (now : Z) : option string :=
  if getMonth now <? 0 then None
  else nth_error monthNames (Z.to_nat (getMonth now)).

(** [Math.round]: the nearest integer, a tie going up. *)
Definition mathRound (x : Q) : Z := Qfloor (x + (1 # 2)).

(** [x.toFixed(1)] as the integer [n] of tenths of the text it gives
    ([n / 10] with one decimal): the nearest number of tenths of the
    magnitude, a tie going up, with the sign of [x] (the text of a negative
    number that rounds to 0 is "-0.0", here 0). [None] stands for the other
    texts: those of the numbers that are not finite, and the exponent
    notation from 10^21 on. *)
Definition toFixedLimit : Q := 1000000000000000000000.

Definition toFixed1 (x : num) : option Z :=
  match x with
  | Fin q =>
      if Qle_bool 0 q
      then if Qle_bool toFixedLimit q then None
           else Some (Qfloor (q * 10 + (1 # 2)))
      else if Qle_bool toFixedLimit (- q) then None
           else Some (- Qfloor (- q * 10 + (1 # 2)))
  | _ => None
  end.

(** [percentComplete]: [((dayOfMonth / daysInMonth) * 100).toFixed(1)]. *)
Definition percentComplete (now : Z) : option Z :=
  let dayOfMonth := getDate now in
  toFixed1 (nmul (ndiv (ofZ dayOfMonth) (ofZ (daysInMonth now))) (ofZ 100)).

(** What [todayPercentComplete] holds: the number it starts with, or the
    text of [toFixed(1)]. *)
Inductive shown : Type :=
  | Number (x : num)
  | Text (tenths : option Z).

Definition todayPercentComplete (s : Schedule) (now : Z) : shown :=
  if isDayEnabled s (today now) then
    let totalDailyHours := getDailyWorkingHours s in
    let elapsedTodayHours := getWorkingHoursSoFarToday s now in
    if 0 <? totalDailyHours
    then Text (toFixed1
                 (nmul (ndiv elapsedTodayHours (ofZ totalDailyHours))
                       (ofZ 100)))
    else Number (ofZ 0)
  else Number (ofZ 0).

(** [formatCurrency]: the third decimal digit shown after the amount,
    [Math.round(amount * 1000) % 10] ([%] has the sign of the dividend). *)
Definition thirdDecimal (amount : Q) : Z :=
  Z.rem (mathRound (amount * 1000)) 10.

End View.

(** ** Facts about numbers *)

Module JSNumFacts.

Import JSNum.
Open Scope Q_scope.

(** Unguarded divisions by zero leave the rationals, and the clamp does not
    bring [NaN] back. *)
Example division_by_zero :
  ndiv (Fin 1) (ofZ 0) = PInf /\ ndiv (Fin (-1)) (ofZ 0) = NInf
  /\ ndiv (ofZ 0) (ofZ 0) = NaN.
Proof. repeat split. Qed.

Example clamp_non_finite :
  Engine.clamp01 PInf = Fin 1 /\ Engine.clamp01 NInf = Fin 0
  /\ Engine.clamp01 NaN = NaN /\ nmul (Fin 0) PInf = NaN.
Proof. repeat split. Qed.

Lemma Qle_bool_false (x y : Q) : Qle_bool x y = false -> y < x.
Proof.
  intros H. apply Qnot_le_lt. intros Hle.
  apply Qle_bool_iff in Hle. congruence.
Qed.

Lemma Qzero_inject_Z (z : Z) : Qzero (inject_Z z) = (z =? 0)%Z.
Proof.
  unfold Qzero, Qeq_bool, inject_Z. cbn. now rewrite Z.mul_1_r.
Qed.

Lemma evalsTo_inv (a : num) (q : Q) :
  evalsTo a q -> exists x, a = Fin x /\ x == q.
Proof. destruct a; cbn; try contradiction. intros H. eauto. Qed.

Lemma evalsTo_val (a : num) (q : Q) : evalsTo a q -> val a == q.
Proof. destruct a; cbn; try contradiction. auto. Qed.

Lemma evalsTo_isFinite (a : num) (q : Q) : evalsTo a q -> isFinite a = true.
Proof. destruct a; cbn; try contradiction. auto. Qed.

Lemma evalsTo_eq (a : num) (p q : Q) : evalsTo a p -> p == q -> evalsTo a q.
Proof. destruct a; cbn; try contradiction. intros H1 H2. rewrite H1. exact H2. Qed.







(** Division by a non-zero integer stays finite. *)
Lemma ndiv_Fin_ofZ (x : Q) (z : Z) :
  z <> 0%Z -> ndiv (Fin x) (ofZ z) = Fin (x / inject_Z z).
Proof.
  intros Hz. unfold ndiv, ofZ. rewrite Qzero_inject_Z.
  destruct (Z.eqb_spec z 0); [contradiction | reflexivity].
Qed.

Lemma ndiv_ofZ_ofZ (a z : Z) :
  z <> 0%Z -> ndiv (ofZ a) (ofZ z) = Fin (inject_Z a / inject_Z z).
Proof. apply ndiv_Fin_ofZ. Qed.

Lemma clamp01_Fin (x : Q) : Engine.clamp01 (Fin x) = Fin (clampQ x).
Proof. reflexivity. Qed.

Lemma clampQ_range (x : Q) : 0 <= clampQ x <= 1.
Proof.
  unfold clampQ. cbv zeta.
  destruct (Qle_bool 1 x) eqn:E1.
  - change (Qle_bool 0 1) with true. cbv iota. lra.
  - apply Qle_bool_false in E1.
    destruct (Qle_bool 0 x) eqn:E2.
    + apply Qle_bool_iff in E2. lra.
    + lra.
Qed.

End JSNumFacts.

(** ** Facts about dates *)

Module JSDateFacts.

Import JSDate.
Open Scope Z_scope.

Ltac divmod := Z.div_mod_to_equations.

Lemma days_from_civil_date y m d :
  days_from_civil y m d = days_from_civil y m 1 + d - 1.
Proof. unfold days_from_civil. lia. Qed.

(** The civil date of a day number is a calendar date. *)
Lemma civil_from_days_range z :
  let '(y, m, d) := civil_from_days z in 1 <= m <= 12 /\ 1 <= d <= 31.
Proof.
  unfold civil_from_days. cbv zeta.
  set (z' := z + 719468).
  set (era := z' / 146097).
  set (doe := z' - era * 146097).
  assert (Hdoe : 0 <= doe <= 146096) by (subst doe era; divmod; lia).
  set (yoe := (doe - doe / 1460 + doe / 36524 - doe / 146096) / 365).
  set (doy := doe - (365 * yoe + yoe / 4 - yoe / 100)).
  assert (Hdoy : 0 <= doy <= 365) by (subst doy yoe; divmod; lia).
  set (mp := (5 * doy + 2) / 153).
  assert (Hmp : 0 <= mp <= 11) by (subst mp; divmod; lia).
  split.
  - destruct (mp <? 10) eqn:E; [apply Z.ltb_lt in E | apply Z.ltb_ge in E]; lia.
  - subst mp. divmod. lia.
Qed.

(** Converting a day number to a civil date and back is the identity. *)
Lemma days_from_civil_from_days z :
  let '(y, m, d) := civil_from_days z in days_from_civil y m d = z.
Proof.
  unfold civil_from_days, days_from_civil. cbv zeta.
  set (z' := z + 719468).
  set (era := z' / 146097).
  set (doe := z' - era * 146097).
  assert (Hdoe : 0 <= doe <= 146096) by (subst doe era; divmod; lia).
  set (yoe := (doe - doe / 1460 + doe / 36524 - doe / 146096) / 365).
  assert (Hyoe : 0 <= yoe <= 399) by (subst yoe; divmod; lia).
  set (doy := doe - (365 * yoe + yoe / 4 - yoe / 100)).
  assert (Hdoy : 0 <= doy <= 365) by (subst doy yoe; divmod; lia).
  set (mp := (5 * doy + 2) / 153).
  assert (Hmp : 0 <= mp <= 11) by (subst mp; divmod; lia).
  assert (Hera : (yoe + era * 400) / 400 = era) by (divmod; lia).
  destruct (mp <? 10) eqn:E1.
  - apply Z.ltb_lt in E1.
    replace (mp + 3 <=? 2) with false by (symmetry; apply Z.leb_gt; lia).
    replace (2 <? mp + 3) with true by (symmetry; apply Z.ltb_lt; lia).
    replace (mp + 3 - 3) with mp by lia.
    rewrite Hera.
    replace (yoe + era * 400 - era * 400) with yoe by lia.
    subst doy doe z'. lia.
  - apply Z.ltb_ge in E1.
    replace (mp - 9 <=? 2) with true by (symmetry; apply Z.leb_le; lia).
    replace (2 <? mp - 9) with false by (symmetry; apply Z.ltb_ge; lia).
    replace (mp - 9 + 9) with mp by lia.
    replace (yoe + era * 400 + 1 - 1) with (yoe + era * 400) by lia.
    rewrite Hera.
    replace (yoe + era * 400 - era * 400) with yoe by lia.
    subst doy doe z'. lia.
Qed.

(** From 1600-03-01 on, the year of a day number is at least 1600. *)
Lemma civil_from_days_year_lb z :
  -135080 <= z -> 1600 <= fst (fst (civil_from_days z)).
Proof.
  intros Hz. unfold civil_from_days. cbv zeta.
  set (z' := z + 719468).
  set (era := z' / 146097).
  set (doe := z' - era * 146097).
  assert (Hera : 4 <= era) by (subst era z'; divmod; lia).
  assert (Hdoe : 0 <= doe <= 146096) by (subst doe era; divmod; lia).
  set (yoe := (doe - doe / 1460 + doe / 36524 - doe / 146096) / 365).
  assert (Hyoe : 0 <= yoe <= 399) by (subst yoe; divmod; lia).
  cbn [fst]. destruct (_ <=? 2); lia.
Qed.

Lemma days_from_civil_lb y m :
  1899 <= y -> 1 <= m <= 12 -> -135080 <= days_from_civil y m 1.
Proof.
  intros Hy Hm. unfold days_from_civil.
  destruct (m <=? 2) eqn:E1; destruct (2 <? m) eqn:E2;
    try apply Z.leb_le in E1; try apply Z.leb_gt in E1;
    try apply Z.ltb_lt in E2; try apply Z.ltb_ge in E2; try lia.
  - divmod. lia.
  - divmod. lia.
Qed.

(** The calendar on known dates: the epoch is Thursday 1970-01-01, the day
    before it is 1969-12-31, and 2025-09-03 is a Wednesday. *)
Example epoch_date :
  (getFullYear 0, getMonth 0, getDate 0, getDay 0) = (1970, 0, 1, 4).
Proof. reflexivity. Qed.

Example before_epoch_date :
  (getFullYear (-1), getMonth (-1), getDate (-1), getDay (-1))
  = (1969, 11, 31, 3).
Proof. reflexivity. Qed.

Example wednesday_date :
  let t := newDate 2025 8 3 14 30 0 in
  (getFullYear t, getMonth t, getDate t, getDay t, getHours t, getMinutes t)
  = (2025, 8, 3, 3, 14, 30).
Proof. vm_compute. reflexivity. Qed.

(** The constructor carries months and hours over, and reads the years
    0..99 as 1900..1999. *)
Example newDate_carries :
  newDate 2025 12 1 0 0 0 = newDate 2026 0 1 0 0 0
  /\ newDate 2025 8 3 30 0 0 = newDate 2025 8 4 6 0 0
  /\ newDate 25 8 3 0 0 0 = newDate 1925 8 3 0 0 0.
Proof. vm_compute. repeat split. Qed.

Lemma getMonth_range t : 0 <= getMonth t <= 11.
Proof.
  unfold getMonth. pose proof (civil_from_days_range (Day t)) as H.
  destruct (civil_from_days (Day t)) as [[y m] d]. cbn. lia.
Qed.

Lemma getDate_range t : 1 <= getDate t <= 31.
Proof.
  unfold getDate. pose proof (civil_from_days_range (Day t)) as H.
  destruct (civil_from_days (Day t)) as [[y m] d]. cbn. lia.
Qed.

Lemma getDay_range t : 0 <= getDay t < 7.
Proof. unfold getDay. apply Z.mod_pos_bound. lia. Qed.

Lemma getHours_range t : 0 <= getHours t < 24.
Proof. unfold getHours. apply Z.mod_pos_bound. lia. Qed.

Lemma getMinutes_range t : 0 <= getMinutes t < 60.
Proof. unfold getMinutes. apply Z.mod_pos_bound. lia. Qed.

Lemma Day_midnight X : Day (X * msPerDay) = X.
Proof. unfold Day, msPerDay. apply Z.div_mul. lia. Qed.

Lemma MakeDay_month y m d :
  0 <= m <= 11 -> MakeDay y m d = days_from_civil y (m + 1) d.
Proof.
  intros Hm. unfold MakeDay. cbv zeta.
  rewrite (Z.div_small m 12), (Z.mod_small m 12) by lia.
  rewrite (days_from_civil_date y (m + 1) d).
  replace (y + 0) with y by lia. reflexivity.
Qed.

(** The date argument of the constructor counts days linearly. *)
Lemma MakeDay_date y m d d' : MakeDay y m d = MakeDay y m d' + (d - d').
Proof. unfold MakeDay. lia. Qed.

Lemma newDay_eq y m d : newDay y m d = MakeDay (MakeFullYear y) m d * msPerDay.
Proof. unfold newDay, newDate, MakeDate, MakeTime. lia. Qed.

(** The hours argument of the constructor counts hours linearly. *)
Lemma newDate_hours y m d h :
  newDate y m d h 0 0 = newDay y m d + h * msPerHour.
Proof. unfold newDay, newDate, MakeDate, MakeTime. lia. Qed.

Lemma newDay_date y m d d' :
  newDay y m d = newDay y m d' + (d - d') * msPerDay.
Proof. rewrite !newDay_eq, (MakeDay_date _ m d d'). lia. Qed.

Lemma Day_newDay y m d : Day (newDay y m d) = MakeDay (MakeFullYear y) m d.
Proof. rewrite newDay_eq. apply Day_midnight. Qed.

Lemma MakeFullYear_plain y : y < 0 \/ 99 < y -> MakeFullYear y = y.
Proof.
  intros H. unfold MakeFullYear.
  destruct (Z.leb_spec 0 y); destruct (Z.leb_spec y 99);
    cbv [andb]; lia.
Qed.

Lemma MakeFullYear_short y : 0 <= y <= 99 -> MakeFullYear y = 1900 + y.
Proof.
  intros H. unfold MakeFullYear.
  destruct (Z.leb_spec 0 y); destruct (Z.leb_spec y 99);
    cbv [andb]; lia.
Qed.

(** Rebuilding a date from its own getters gives its midnight, outside
    the years 0..99. *)
Lemma newDay_getters t :
  getFullYear t < 0 \/ 99 < getFullYear t ->
  newDay (getFullYear t) (getMonth t) (getDate t) = Day t * msPerDay.
Proof.
  intros Hy. rewrite newDay_eq, MakeFullYear_plain by exact Hy.
  rewrite MakeDay_month by apply getMonth_range.
  unfold getFullYear, getMonth, getDate in *.
  pose proof (days_from_civil_from_days (Day t)) as H.
  destruct (civil_from_days (Day t)) as [[y m] d]. cbn in *.
  replace (m - 1 + 1) with m by lia. now rewrite H.
Qed.

(** The midnight built from the getters of any date is never in the years
    0..99: it is the date's own year, or in 1900..1999. *)
Lemma newDay_getters_year t :
  let T := newDay (getFullYear t) (getMonth t) (getDate t) in
  getFullYear T < 0 \/ 99 < getFullYear T.
Proof.
  cbv zeta.
  destruct (Z.lt_ge_cases (getFullYear t) 0) as [Hneg | Hpos].
  - rewrite newDay_getters by (left; exact Hneg).
    left. unfold getFullYear at 1. rewrite Day_midnight. exact Hneg.
  - destruct (Z.le_gt_cases (getFullYear t) 99) as [Hle | Hgt].
    + right. unfold getFullYear at 1. rewrite Day_newDay.
      rewrite MakeDay_month by apply getMonth_range.
      rewrite days_from_civil_date.
      pose proof (getMonth_range t). pose proof (getDate_range t).
      assert (1900 <= MakeFullYear (getFullYear t))
        by (rewrite MakeFullYear_short; lia).
      pose proof (days_from_civil_lb (MakeFullYear (getFullYear t))
                    (getMonth t + 1) ltac:(lia) ltac:(lia)).
      pose proof (civil_from_days_year_lb
                    (days_from_civil (MakeFullYear (getFullYear t))
                       (getMonth t + 1) 1 + getDate t - 1) ltac:(lia)).
      lia.
    + rewrite newDay_getters by (right; lia).
      right. unfold getFullYear at 1. rewrite Day_midnight. exact Hgt.
Qed.

(** Rebuilding a midnight from the getters of a midnight that was itself
    built from getters gives it back. *)
Lemma newDay_getters_twice t :
  let T := newDay (getFullYear t) (getMonth t) (getDate t) in
  newDay (getFullYear T) (getMonth T) (getDate T) = T.
Proof.
  cbv zeta. rewrite newDay_getters by apply newDay_getters_year.
  rewrite Day_newDay. symmetry. apply newDay_eq.
Qed.

End JSDateFacts.

(** ** Facts about the helpers *)

Module EngineFacts.

Import JSNum JSDate Engine Spec JSNumFacts JSDateFacts.
Open Scope Z_scope.

(** The helpers on Wednesday 2025-09-03 at 14:00 with the initial
    settings: 30 days and 22 working days in the month, 4 of 8 hours today,
    20 of 176 hours this month. *)
Example september_2025 :
  daysInMonth (wednesdayAt 14) = 30
  /\ getTotalWorkingHoursThisMonth defaultSchedule (wednesdayAt 14) = 176
  /\ getTotalWorkingDaysPerYear defaultSchedule = 260.
Proof. vm_compute. repeat split. Qed.

Example earnings_on_wednesday :
  evalsTo (calculateEarnings defaultSchedule (wednesdayAt 14) 30000)
          (2500 * (20 / 176))
  /\ evalsTo (calculateDailyEarnings defaultSchedule (wednesdayAt 14) 30000)
             (30000 / 260 * (4 / 8))
  /\ evalsTo (earnedPerSecond defaultSchedule (wednesdayAt 14))
             (2500 / (176 * 3600))
  /\ isCurrentlyInWorkHours defaultSchedule (wednesdayAt 14) = true
  /\ isCurrentlyInWorkHours defaultSchedule (wednesdayAt 18) = false.
Proof. vm_compute. repeat split. Qed.

Section Today.

Variable s : Schedule.
Variable now : Z.

(** The boundaries the code builds from the getters of [today] are the
    start and end hour counted from today's midnight. *)
Lemma today_boundary (h : Z) :
  newDate (getFullYear (today now)) (getMonth (today now))
          (getDate (today now)) h 0 0
  = today now + h * msPerHour.
Proof.
  rewrite newDate_hours. unfold today. now rewrite newDay_getters_twice.
Qed.

Lemma startBoundary_eq :
  startBoundary s now = today now + startHour s * msPerHour.
Proof. reflexivity. Qed.

Lemma endBoundary_eq :
  endBoundary s now = today now + endHour s * msPerHour.
Proof. reflexivity. Qed.

(** The window between the boundaries is the daily working hours. *)
Lemma boundary_gap :
  endBoundary s now - startBoundary s now
  = getDailyWorkingHours s * msPerHour.
Proof.
  rewrite startBoundary_eq, endBoundary_eq. unfold getDailyWorkingHours.
  generalize (today now). intros T. lia.
Qed.

Lemma hoursSince_Fin (startOfWork : Z) :
  hoursSince now startOfWork
  = Fin (inject_Z (now - startOfWork) / inject_Z 1000 / inject_Z 3600).
Proof.
  unfold hoursSince. unfold ofZ at 1.
  rewrite ndiv_Fin_ofZ by lia. now rewrite ndiv_Fin_ofZ by lia.
Qed.

Lemma hoursSince_evalsTo (startOfWork : Z) :
  evalsTo (hoursSince now startOfWork)
          (inject_Z (now - startOfWork) / inject_Z msPerHour).
Proof.
  rewrite hoursSince_Fin. cbn [evalsTo]. unfold msPerHour.
  change 3600000 with (1000 * 3600). rewrite inject_Z_mult.
  field; repeat split; discriminate.
Qed.

(** [getWorkingHoursSoFarToday] in terms of the two boundaries. *)
Lemma getWorkingHoursSoFarToday_eq :
  getWorkingHoursSoFarToday s now
  = if negb (isDayEnabled s (today now)) then ofZ 0
    else if now <? startBoundary s now then ofZ 0
    else if now >? endBoundary s now then ofZ (endHour s - startHour s)
    else hoursSince now (startBoundary s now).
Proof.
  unfold getWorkingHoursSoFarToday. cbv zeta.
  rewrite !today_boundary, <- startBoundary_eq, <- endBoundary_eq.
  reflexivity.
Qed.

Lemma getWorkingHoursSoFarToday_finite :
  exists q, getWorkingHoursSoFarToday s now = Fin q.
Proof.
  rewrite getWorkingHoursSoFarToday_eq.
  destruct (negb _); [eexists; reflexivity|].
  destruct (now <? _); [eexists; reflexivity|].
  destruct (now >? _); [eexists; reflexivity|].
  rewrite hoursSince_Fin. eexists; reflexivity.
Qed.

(** The value of [getWorkingHoursSoFarToday], case by case. *)
Lemma getWorkingHoursSoFarToday_cases :
  (isDayEnabled s (today now) = false \/ now < startBoundary s now ->
   evalsTo (getWorkingHoursSoFarToday s now) 0)
  /\ (isDayEnabled s (today now) = true ->
      startBoundary s now <= now -> endBoundary s now <= now ->
      evalsTo (getWorkingHoursSoFarToday s now)
              (inject_Z (getDailyWorkingHours s)))
  /\ (isDayEnabled s (today now) = true ->
      startBoundary s now <= now -> now < endBoundary s now ->
      evalsTo (getWorkingHoursSoFarToday s now)
              (inject_Z (now - startBoundary s now) / inject_Z msPerHour)).
Proof.
  rewrite getWorkingHoursSoFarToday_eq.
  repeat split.
  - intros [Hoff | Hearly].
    + rewrite Hoff. cbn [negb]. reflexivity.
    + destruct (negb _); [reflexivity|].
      apply Z.ltb_lt in Hearly. rewrite Hearly. reflexivity.
  - intros Hon Hs He. rewrite Hon. cbn [negb].
    destruct (Z.ltb_spec now (startBoundary s now)); [lia|].
    destruct (Z.gtb_spec now (endBoundary s now)).
    + reflexivity.
    + eapply evalsTo_eq; [apply hoursSince_evalsTo|].
      replace (now - startBoundary s now)
        with (getDailyWorkingHours s * msPerHour)
        by (rewrite <- boundary_gap; lia).
      rewrite inject_Z_mult. apply Qdiv_mult_l. discriminate.
  - intros Hon Hs He. rewrite Hon. cbn [negb].
    destruct (Z.ltb_spec now (startBoundary s now)); [lia|].
    destruct (Z.gtb_spec now (endBoundary s now)); [lia|].
    apply hoursSince_evalsTo.
Qed.

End Today.

(** *** Loops *)

Lemma daysUpTo_bound (n d : Z) : In d (daysUpTo n) -> 1 <= d <= n.
Proof.
  unfold daysUpTo. rewrite in_map_iff. intros [k [<- Hk]].
  apply in_seq in Hk. lia.
Qed.

Lemma Qsum_cons (x : Q) (l : list Q) : Qsum (x :: l) = (x + Qsum l)%Q.
Proof. reflexivity. Qed.

(** Counting with an accumulator counts the elements that pass the test. *)
Lemma fold_count {A : Type} (f : A -> bool) (step : Z) (l : list A) (acc : Z) :
  fold_left (fun n x => if f x then n + step else n) l acc
  = acc + step * Z.of_nat (length (filter f l)).
Proof.
  revert acc. induction l as [|x l IH]; intros acc; cbn [fold_left filter].
  - cbn. lia.
  - rewrite IH. destruct (f x); cbn [length]; lia.
Qed.

Section Month.

Variable s : Schedule.
Variable now : Z.

Lemma today_eq :
  today now = newDay (getFullYear now) (getMonth now) (getDate now).
Proof. reflexivity. Qed.

(** One iteration of the month loop adds the day's contribution. *)
Lemma soFarStep_contribution (a : Q) (day : Z) :
  day <= getDate now ->
  exists a',
    soFarStep s now (getFullYear now) (getMonth now) (Fin a) day = Fin a'
    /\ (a' == a + dayContribution s now day)%Q.
Proof.
  intros Hday. unfold soFarStep, dayContribution. cbv zeta.
  destruct (Z.ltb_spec day (getDate now)) as [Hlt | Hge].
  - destruct (negb _).
    + exists a. split; [reflexivity | ring].
    + eexists. split; [reflexivity | reflexivity].
  - assert (day = getDate now) as -> by lia.
    rewrite Z.eqb_refl, !newDate_hours, <- today_eq.
    rewrite <- startBoundary_eq, <- endBoundary_eq.
    rewrite getWorkingHoursSoFarToday_eq.
    destruct (negb _).
    + exists a. split; [reflexivity | ring].
    + destruct (now <? startBoundary s now).
      * exists a. split; [reflexivity | cbn [val ofZ]; ring].
      * destruct (now >? endBoundary s now).
        -- eexists. split; [reflexivity | reflexivity].
        -- rewrite hoursSince_Fin. eexists. split; reflexivity.
Qed.

Lemma soFar_fold (l : list Z) :
  (forall d, In d l -> d <= getDate now) ->
  forall a, exists a',
    fold_left (soFarStep s now (getFullYear now) (getMonth now)) l (Fin a)
    = Fin a'
    /\ (a' == a + Qsum (map (dayContribution s now) l))%Q.
Proof.
  induction l as [|d l IH]; intros Hl a.
  - exists a. split; [reflexivity | cbn; ring].
  - destruct (soFarStep_contribution a d) as [a1 [E1 H1]].
    { apply Hl. now left. }
    destruct (IH (fun d' H => Hl d' (or_intror H)) a1) as [a2 [E2 H2]].
    exists a2. cbn [fold_left map]. rewrite E1, E2, Qsum_cons.
    split; [reflexivity|]. rewrite H2, H1. ring.
Qed.

(** The month loop computes the sum of the days' contributions. *)
Lemma getWorkingHoursSoFarThisMonth_sum :
  evalsTo (getWorkingHoursSoFarThisMonth s now) (elapsedHoursThisMonth s now).
Proof.
  unfold getWorkingHoursSoFarThisMonth, elapsedHoursThisMonth. cbv zeta.
  destruct (soFar_fold (daysUpTo (getDate now))) with (a := 0%Q)
    as [a' [E H]].
  { intros d Hd. apply daysUpTo_bound in Hd. lia. }
  unfold ofZ. change (inject_Z 0) with 0%Q. rewrite E. cbn [evalsTo].
  rewrite H. ring.
Qed.

Lemma getTotalWorkingHoursThisMonth_count :
  getTotalWorkingHoursThisMonth s now
  = getDailyWorkingHours s * workingDaysThisMonth s now.
Proof.
  unfold getTotalWorkingHoursThisMonth, workingDaysThisMonth, totalStep.
  cbv zeta. rewrite fold_count. unfold getDailyWorkingHours. lia.
Qed.

Lemma getTotalWorkingDaysPerYear_count :
  getTotalWorkingDaysPerYear s = workingDaysPerWeek s * 52.
Proof.
  unfold getTotalWorkingDaysPerYear, workingDaysPerWeek. cbv zeta.
  rewrite fold_count. lia.
Qed.

End Month.

(** *** Earnings *)

Section Earnings.

Variable s : Schedule.
Variable now : Z.

Lemma getTotalWorkingDaysPerYear_nonneg : 0 <= getTotalWorkingDaysPerYear s.
Proof. rewrite getTotalWorkingDaysPerYear_count. unfold workingDaysPerWeek. lia. Qed.

Lemma monthlyFraction_range :
  exists f, monthlyFraction s now = Fin f /\ (0 <= f <= 1)%Q
            /\ (getTotalWorkingHoursThisMonth s now = 0 -> (f == 0)%Q).
Proof.
  unfold monthlyFraction.
  destruct (Z.eqb_spec (getTotalWorkingHoursThisMonth s now) 0) as [E | E].
  - exists 0%Q. split; [reflexivity|]. split; [lra|]. reflexivity.
  - destruct (evalsTo_inv _ _ (getWorkingHoursSoFarThisMonth_sum s now))
      as [e [-> _]].
    rewrite ndiv_Fin_ofZ, clamp01_Fin by exact E.
    eexists. split; [reflexivity|]. split; [apply clampQ_range | contradiction].
Qed.

Lemma dailyFraction_range :
  exists f, dailyFraction s now = Fin f /\ (0 <= f <= 1)%Q
            /\ (getDailyWorkingHours s = 0 -> (f == 0)%Q)
            /\ (isDayEnabled s (today now) = false -> (f == 0)%Q).
Proof.
  unfold dailyFraction.
  destruct (Z.eqb_spec (getDailyWorkingHours s) 0) as [E | E].
  - exists 0%Q. split; [reflexivity|]. split; [lra|]. split; reflexivity.
  - destruct (isDayEnabled s (today now)) eqn:Hon; cbn [negb orb].
    + destruct (getWorkingHoursSoFarToday_finite s now) as [e ->].
      rewrite ndiv_Fin_ofZ, clamp01_Fin by exact E.
      eexists. split; [reflexivity|].
      split; [apply clampQ_range|]. split; [contradiction | discriminate].
    + exists 0%Q. split; [reflexivity|]. split; [lra|]. split; reflexivity.
Qed.

(** The month's earnings are the monthly salary scaled by the fraction. *)
Lemma calculateEarnings_fraction (annual : Q) :
  evalsTo (calculateEarnings s now annual)
          (annual / 12 * val (monthlyFraction s now)).
Proof.
  unfold calculateEarnings, monthlyFraction. cbv zeta.
  destruct (Z.eqb_spec (getTotalWorkingHoursThisMonth s now) 0) as [E | E].
  - cbn [evalsTo ofZ val]. change (inject_Z 0) with 0%Q. ring.
  - destruct (evalsTo_inv _ _ (getWorkingHoursSoFarThisMonth_sum s now))
      as [e [-> _]].
    rewrite (ndiv_Fin_ofZ e), clamp01_Fin by exact E.
    rewrite ndiv_Fin_ofZ by discriminate.
    cbn [nmul evalsTo val]. reflexivity.
Qed.

(** Today's earnings are the daily rate scaled by the fraction. *)
Lemma calculateDailyEarnings_fraction (annual : Q) :
  evalsTo (calculateDailyEarnings s now annual)
          (dailyRate s annual * val (dailyFraction s now)).
Proof.
  unfold calculateDailyEarnings, dailyFraction, dailyRate. cbv zeta.
  destruct (isDayEnabled s (today now)) eqn:Hon; cbn [negb].
  2: { rewrite orb_true_r. cbn [evalsTo ofZ val].
       change (inject_Z 0) with 0%Q. ring. }
  rewrite orb_false_r.
  destruct (Z.eqb_spec (getDailyWorkingHours s) 0) as [E | E].
  { cbn [evalsTo ofZ val]. change (inject_Z 0) with 0%Q. ring. }
  destruct (getWorkingHoursSoFarToday_finite s now) as [e ->].
  rewrite (ndiv_Fin_ofZ e), clamp01_Fin by exact E.
  destruct (Z.ltb_spec 0 (getTotalWorkingDaysPerYear s)) as [Hpos | Hnone].
  - rewrite ndiv_Fin_ofZ by lia. cbn [nmul evalsTo val]. reflexivity.
  - cbn [nmul ofZ evalsTo val]. reflexivity.
Qed.

Lemma earnedPerSecond_cases :
  (0 < getTotalWorkingHoursThisMonth s now ->
   evalsTo (earnedPerSecond s now)
           (annualSalary s / 12
            / inject_Z (getTotalWorkingHoursThisMonth s now * 3600)))
  /\ (getTotalWorkingHoursThisMonth s now <= 0 ->
      evalsTo (earnedPerSecond s now) 0).
Proof.
  unfold earnedPerSecond, monthlySalaryRaw. cbv zeta. split; intros H.
  - destruct (Z.ltb_spec 0 (getTotalWorkingHoursThisMonth s now * 3600));
      [|lia].
    rewrite (ndiv_Fin_ofZ _ 12) by discriminate.
    rewrite ndiv_Fin_ofZ by lia. reflexivity.
  - destruct (Z.ltb_spec 0 (getTotalWorkingHoursThisMonth s now * 3600));
      [lia|]. reflexivity.
Qed.

Lemma isCurrentlyInWorkHours_iff :
  isCurrentlyInWorkHours s now = true
  <-> isDayEnabled s (today now) = true
      /\ (inject_Z (startHour s) <= timeOfDayHours now
          /\ timeOfDayHours now < inject_Z (endHour s))%Q.
Proof.
  unfold isCurrentlyInWorkHours, timeOfDayHours. cbv zeta.
  destruct (isDayEnabled s (today now)); cbn [negb].
  2: { split; [discriminate | intros [H _]; discriminate]. }
  rewrite !ndiv_ofZ_ofZ by discriminate.
  cbn [ofZ nadd nge nlt]. unfold Qltb.
  rewrite andb_true_iff, negb_involutive, negb_true_iff.
  change (inject_Z 60) with 60%Q.
  rewrite Qle_bool_iff. split.
  - intros [H1 H2]. split; [reflexivity|]. split; [exact H1|].
    now apply Qle_bool_false.
  - intros [_ [H1 H2]]. split; [exact H1|].
    destruct (Qle_bool _ _) eqn:E; [|reflexivity].
    apply Qle_bool_iff in E. lra.
Qed.

End Earnings.

(** *** The day of a clock reading *)

Lemma today_same_day (t1 t2 : Z) : Day t1 = Day t2 -> today t1 = today t2.
Proof.
  intros H. unfold today, getFullYear, getMonth, getDate. now rewrite H.
Qed.

Lemma today_plain (now : Z) : plainYear now -> today now = Day now * msPerDay.
Proof. intros H. rewrite (today_eq now). now apply newDay_getters. Qed.

Lemma today_time (now : Z) :
  plainYear now -> now = today now + TimeWithinDay now.
Proof.
  intros H. rewrite (today_plain now H). unfold Day, TimeWithinDay.
  pose proof (Z.div_mod now msPerDay ltac:(discriminate)). lia.
Qed.

(** The weekday of a day of the current month, from today's weekday. *)
Lemma getDay_loop (now day : Z) :
  plainYear now ->
  getDay (newDay (getFullYear now) (getMonth now) day)
  = (getDay now + (day - getDate now)) mod 7.
Proof.
  intros H.
  rewrite (newDay_date _ _ day (getDate now)), <- (today_eq now).
  rewrite (today_plain now H).
  rewrite <- Z.mul_add_distr_r. unfold getDay. rewrite Day_midnight.
  rewrite Zplus_mod_idemp_l. f_equal. lia.
Qed.

Lemma getDay_today (now : Z) : plainYear now -> getDay (today now) = getDay now.
Proof.
  intros H. rewrite (today_plain now H).
  unfold getDay. now rewrite Day_midnight.
Qed.

(** *** Milliseconds and hours *)


Lemma hours_of_ms_le (a b : Z) :
  a <= b -> (inject_Z a / inject_Z msPerHour <= inject_Z b / inject_Z msPerHour)%Q.
Proof.
  intros H. apply Qmult_le_compat_r.
  - now rewrite <- Zle_Qle.
  - discriminate.
Qed.

Lemma hours_of_ms_hours (k : Z) :
  (inject_Z (k * msPerHour) / inject_Z msPerHour == inject_Z k)%Q.
Proof. rewrite inject_Z_mult. apply Qdiv_mult_l. discriminate. Qed.

Section Elapsed.

Variable s : Schedule.
Variable now : Z.

(** [getWorkingHoursSoFarToday] is the elapsed milliseconds, in hours. *)
Lemma getWorkingHoursSoFarToday_ms :
  evalsTo (getWorkingHoursSoFarToday s now)
          (inject_Z (elapsedMsToday s now) / inject_Z msPerHour).
Proof.
  rewrite getWorkingHoursSoFarToday_eq. unfold elapsedMsToday.
  destruct (negb _); [reflexivity|].
  destruct (now <? _); [reflexivity|].
  destruct (now >? _).
  - cbn [evalsTo ofZ]. symmetry. apply hours_of_ms_hours.
  - apply hoursSince_evalsTo.
Qed.

End Elapsed.

(** The elapsed milliseconds grow with the clock within one day, when the
    window is not inverted. *)
Lemma elapsedMsToday_monotone (s : Schedule) (t1 t2 : Z) :
  startHour s <= endHour s -> today t1 = today t2 -> t1 <= t2 ->
  elapsedMsToday s t1 <= elapsedMsToday s t2.
Proof.
  intros Hwin Hday Hle. unfold elapsedMsToday.
  rewrite (startBoundary_eq s t1).
  rewrite (startBoundary_eq s t2).
  rewrite (endBoundary_eq s t1), (endBoundary_eq s t2).
  rewrite <- Hday.
  generalize (today t1). intros T. unfold msPerHour.
  destruct (negb _); [lia|].
  destruct (Z.ltb_spec t1 (T + startHour s * 3600000));
  destruct (Z.ltb_spec t2 (T + startHour s * 3600000));
  destruct (Z.gtb_spec t1 (T + endHour s * 3600000));
  destruct (Z.gtb_spec t2 (T + endHour s * 3600000)); lia.
Qed.

(** *** All days off *)

Lemma filter_none {A : Type} (f : A -> bool) (l : list A) :
  (forall x, In x l -> f x = false) -> filter f l = [].
Proof.
  induction l as [|x l IH]; intros H; [reflexivity|].
  cbn [filter]. rewrite (H x (or_introl eq_refl)).
  apply IH. intros y Hy. apply H. now right.
Qed.

Lemma weekDays_bound (d : Z) : In d weekDays -> 0 <= d < 7.
Proof.
  unfold weekDays. rewrite in_map_iff. intros [k [<- Hk]].
  apply in_seq in Hk. lia.
Qed.

Section Idle.

Variable s : Schedule.
Hypothesis Hoff : allDaysOff s.

Lemma allDaysOff_disabled (date : Z) : isDayEnabled s date = false.
Proof. apply Hoff, getDay_range. Qed.

Lemma allDaysOff_month (now : Z) : getTotalWorkingHoursThisMonth s now = 0.
Proof.
  rewrite getTotalWorkingHoursThisMonth_count. unfold workingDaysThisMonth.
  rewrite filter_none by (intros; apply allDaysOff_disabled).
  cbn [length]. lia.
Qed.

Lemma allDaysOff_year : getTotalWorkingDaysPerYear s = 0.
Proof.
  rewrite getTotalWorkingDaysPerYear_count. unfold workingDaysPerWeek.
  rewrite filter_none by (intros d Hd; apply Hoff, weekDays_bound, Hd).
  reflexivity.
Qed.

End Idle.

(** *** A Wednesday at 14:00 after a Monday and a Tuesday *)

Section Wednesday.

Variable s : Schedule.
Variable now : Z.
Hypothesis Hdays : monToFri s.
Hypothesis Hstart : startHour s = 10.
Hypothesis Hend : endHour s = 18.
Hypothesis Hyear : plainYear now.
Hypothesis Hwed : getDay now = 3.
Hypothesis Htime : TimeWithinDay now = 14 * msPerHour.

Lemma wednesday_enabled : isDayEnabled s (today now) = true.
Proof.
  unfold isDayEnabled. rewrite getDay_today, Hwed by exact Hyear.
  rewrite Hdays by lia. reflexivity.
Qed.

Lemma wednesday_today : evalsTo (getWorkingHoursSoFarToday s now) 4.
Proof.
  pose proof (today_time now Hyear) as Hnow. rewrite Htime in Hnow.
  destruct (getWorkingHoursSoFarToday_cases s now) as [_ [_ Hmid]].
  eapply evalsTo_eq.
  - apply Hmid.
    + apply wednesday_enabled.
    + rewrite (startBoundary_eq s now), Hstart. revert Hnow.
      generalize (today now). unfold msPerHour. intros T Hnow. lia.
    + rewrite (endBoundary_eq s now), Hend. revert Hnow.
      generalize (today now). unfold msPerHour. intros T Hnow. lia.
  - replace (now - startBoundary s now) with (4 * msPerHour).
    + apply hours_of_ms_hours.
    + rewrite (startBoundary_eq s now), Hstart. revert Hnow.
      generalize (today now). unfold msPerHour. intros T Hnow. lia.
Qed.

(** What a day of the month contributes, from today's weekday. *)
Lemma wednesday_contribution (day : Z) :
  (dayContribution s now day
   == if negb (defaultToggles ((3 + (day - getDate now)) mod 7))
      then 0
      else if day <? getDate now then 8 else 4)%Q.
Proof.
  unfold dayContribution, isDayEnabled.
  rewrite getDay_loop, Hwed by exact Hyear.
  rewrite Hdays by (apply Z.mod_pos_bound; lia).
  destruct (negb _); [reflexivity|].
  destruct (day <? getDate now).
  - unfold getDailyWorkingHours. rewrite Hstart, Hend. reflexivity.
  - apply evalsTo_val, wednesday_today.
Qed.

Lemma wednesday_month :
  3 <= getDate now <= 5 ->
  evalsTo (getWorkingHoursSoFarThisMonth s now) 20.
Proof.
  intros Hdate.
  eapply evalsTo_eq; [apply getWorkingHoursSoFarThisMonth_sum|].
  unfold elapsedHoursThisMonth.
  assert (getDate now = 3 \/ getDate now = 4 \/ getDate now = 5)
    as [E | [E | E]] by lia.
  - rewrite E at 1. change (daysUpTo 3) with [1; 2; 3].
    cbn [map Qsum fold_right].
    rewrite (wednesday_contribution 1), (wednesday_contribution 2),
      (wednesday_contribution 3).
    rewrite E. reflexivity.
  - rewrite E at 1. change (daysUpTo 4) with [1; 2; 3; 4].
    cbn [map Qsum fold_right].
    rewrite (wednesday_contribution 1), (wednesday_contribution 2),
      (wednesday_contribution 3), (wednesday_contribution 4).
    rewrite E. reflexivity.
  - rewrite E at 1. change (daysUpTo 5) with [1; 2; 3; 4; 5].
    cbn [map Qsum fold_right].
    rewrite (wednesday_contribution 1), (wednesday_contribution 2),
      (wednesday_contribution 3), (wednesday_contribution 4),
      (wednesday_contribution 5).
    rewrite E. reflexivity.
Qed.

End Wednesday.
End EngineFacts.

(** ** The properties of the specification *)

Module Properties.

Import JSNum JSDate Engine Spec JSNumFacts JSDateFacts EngineFacts.
Open Scope Z_scope.




(** C1: for every schedule and clock reading, the monthly and the daily
    fraction that scale the earnings are finite numbers of [0,1], each is 0
    when its denominator is 0, and the earnings are then 0 (a finite
    number, no fault). *)
Theorem fractions_in_unit_interval (s : Schedule) (now : Z) :
  exists fm fd : Q,
    monthlyFraction s now = Fin fm /\ dailyFraction s now = Fin fd
    /\ (0 <= fm <= 1)%Q /\ (0 <= fd <= 1)%Q
    /\ (getTotalWorkingHoursThisMonth s now = 0 -> (fm == 0)%Q)
    /\ (getDailyWorkingHours s = 0 -> (fd == 0)%Q)
    /\ (forall annual,
          evalsTo (calculateEarnings s now annual) (annual / 12 * fm))
    /\ (forall annual,
          evalsTo (calculateDailyEarnings s now annual)
                  (dailyRate s annual * fd))
    /\ (getTotalWorkingHoursThisMonth s now = 0 ->
        forall annual, evalsTo (calculateEarnings s now annual) 0)
    /\ (getDailyWorkingHours s = 0 ->
        forall annual, evalsTo (calculateDailyEarnings s now annual) 0).
Proof.
  destruct (monthlyFraction_range s now) as [fm [Em [Rm Zm]]].
  destruct (dailyFraction_range s now) as [fd [Ed [Rd [Zd _]]]].
  assert (Hm : forall annual,
             evalsTo (calculateEarnings s now annual) (annual / 12 * fm)).
  { intros annual. pose proof (calculateEarnings_fraction s now annual) as H.
    rewrite Em in H. exact H. }
  assert (Hd : forall annual,
             evalsTo (calculateDailyEarnings s now annual)
                     (dailyRate s annual * fd)).
  { intros annual.
    pose proof (calculateDailyEarnings_fraction s now annual) as H.
    rewrite Ed in H. exact H. }
  exists fm, fd.
  refine (conj Em (conj Ed (conj Rm (conj Rd (conj Zm (conj Zd
            (conj Hm (conj Hd (conj _ _))))))))).
  - intros H annual. eapply evalsTo_eq; [apply Hm|]. rewrite (Zm H). ring.
  - intros H annual. eapply evalsTo_eq; [apply Hd|]. rewrite (Zd H). ring.
Qed.

(** C2: today's earnings are the annual salary over the working days of the
    year (the weekdays flagged on, times 52) scaled by the daily fraction;
    they are 0 when there is no working day in the year or today is not a
    working day. *)
Theorem earnings_today_formula (s : Schedule) (now : Z) (annual : Q) :
  getTotalWorkingDaysPerYear s = workingDaysPerWeek s * 52
  /\ (getTotalWorkingDaysPerYear s <> 0 ->
      evalsTo (calculateDailyEarnings s now annual)
              (annual / inject_Z (getTotalWorkingDaysPerYear s)
               * val (dailyFraction s now)))
  /\ (getTotalWorkingDaysPerYear s = 0 \/ isDayEnabled s (today now) = false ->
      evalsTo (calculateDailyEarnings s now annual) 0).
Proof.
  pose proof (calculateDailyEarnings_fraction s now annual) as H.
  pose proof (getTotalWorkingDaysPerYear_nonneg s) as Hnn.
  split; [apply getTotalWorkingDaysPerYear_count|]. split.
  - intros Hdays. eapply evalsTo_eq; [exact H|]. unfold dailyRate.
    destruct (Z.ltb_spec 0 (getTotalWorkingDaysPerYear s)); [reflexivity | lia].
  - intros [Hnone | Hoff].
    + eapply evalsTo_eq; [exact H|]. unfold dailyRate. rewrite Hnone.
      cbn [Z.ltb Z.compare]. ring.
    + destruct (dailyFraction_range s now) as [fd [Ed [_ [_ Zd]]]].
      eapply evalsTo_eq; [exact H|]. rewrite Ed. cbn [val].
      rewrite (Zd Hoff). ring.
Qed.

Lemma earnings_today_formula_witness :
  evalsTo (calculateDailyEarnings defaultSchedule (wednesdayAt 14) 30000)
          (30000 / inject_Z (getTotalWorkingDaysPerYear defaultSchedule)
           * val (dailyFraction defaultSchedule (wednesdayAt 14)))
  /\ evalsTo (calculateDailyEarnings defaultSchedule (sundayAt 14) 30000) 0.
Proof.
  split.
  - apply (proj1 (proj2 (earnings_today_formula
                           defaultSchedule (wednesdayAt 14) 30000))).
    vm_compute. discriminate.
  - apply (proj2 (proj2 (earnings_today_formula
                           defaultSchedule (sundayAt 14) 30000))).
    right. vm_compute. reflexivity.
Defined.

(** C3: the hours elapsed this month are the sum, over the days 1 .. today,
    of 0 for a day off, the full daily hours for a working day before today
    and the hours elapsed today for today; with Monday to Friday on, 10 to
    18, on a Wednesday at 14:00 preceded this month by one Monday and one
    Tuesday only, that is 4 hours today and 20 hours this month. *)
Theorem elapsed_hours_this_month (s : Schedule) (now : Z) :
  evalsTo (getWorkingHoursSoFarThisMonth s now) (elapsedHoursThisMonth s now)
  /\ (monToFri s -> startHour s = 10 -> endHour s = 18 ->
      plainYear now -> getDay now = 3 -> 3 <= getDate now <= 5 ->
      TimeWithinDay now = 14 * msPerHour ->
      evalsTo (getWorkingHoursSoFarToday s now) 4
      /\ evalsTo (getWorkingHoursSoFarThisMonth s now) 20).
Proof.
  split; [apply getWorkingHoursSoFarThisMonth_sum|].
  intros Hdays Hstart Hend Hyear Hwed Hdate Htime. split.
  - now apply wednesday_today.
  - now apply wednesday_month.
Qed.

Lemma elapsed_hours_this_month_witness :
  evalsTo (getWorkingHoursSoFarToday defaultSchedule (wednesdayAt 14)) 4
  /\ evalsTo (getWorkingHoursSoFarThisMonth defaultSchedule (wednesdayAt 14)) 20.
Proof.
  apply (proj2 (elapsed_hours_this_month defaultSchedule (wednesdayAt 14))).
  - intros day Hday. reflexivity.
  - reflexivity.
  - reflexivity.
  - right. vm_compute. reflexivity.
  - vm_compute. reflexivity.
  - vm_compute. split; discriminate.
  - vm_compute. reflexivity.
Defined.






(** C6, as amended: the earnings per second are the monthly salary over the
    working seconds of the month when the month has a positive number of
    working hours, and 0 when that number is zero or negative. *)
Theorem earned_per_second (s : Schedule) (now : Z) :
  (0 < getTotalWorkingHoursThisMonth s now ->
   evalsTo (earnedPerSecond s now)
           (annualSalary s / 12
            / inject_Z (getTotalWorkingHoursThisMonth s now * 3600)))
  /\ (getTotalWorkingHoursThisMonth s now <= 0 ->
      evalsTo (earnedPerSecond s now) 0).
Proof. apply earnedPerSecond_cases. Qed.

Lemma earned_per_second_witness :
  evalsTo (earnedPerSecond defaultSchedule (wednesdayAt 14))
          (annualSalary defaultSchedule / 12
           / inject_Z (getTotalWorkingHoursThisMonth
                         defaultSchedule (wednesdayAt 14) * 3600))
  /\ evalsTo (earnedPerSecond idleSchedule (wednesdayAt 14)) 0.
Proof.
  split.
  - apply (proj1 (earned_per_second defaultSchedule (wednesdayAt 14))).
    vm_compute. reflexivity.
  - apply (proj2 (earned_per_second idleSchedule (wednesdayAt 14))).
    vm_compute. discriminate.
Defined.

(** C6 as stated fails on the inverted window 18 to 10: in September 2025
    the working hours of the month are -176, the denominator is not 0, and the
    earnings per second are 0, not the quotient. *)
Lemma earned_per_second_inverted :
  getTotalWorkingHoursThisMonth invertedSchedule (wednesdayAt 14) = -176
  /\ getTotalWorkingHoursThisMonth invertedSchedule (wednesdayAt 14) * 3600
     <> 0
  /\ evalsTo (earnedPerSecond invertedSchedule (wednesdayAt 14)) 0
  /\ ~ evalsTo (earnedPerSecond invertedSchedule (wednesdayAt 14))
               (annualSalary invertedSchedule / 12
                / inject_Z (getTotalWorkingHoursThisMonth
                              invertedSchedule (wednesdayAt 14) * 3600)).
Proof.
  refine (conj _ (conj _ (conj _ _))).
  - vm_compute. reflexivity.
  - vm_compute. discriminate.
  - vm_compute. reflexivity.
  - vm_compute. discriminate.
Qed.

(** C7: the clock is in work hours exactly when today is a working day and
    the time of day, as hour + minute/60, is in [startHour, endHour). *)
Theorem currently_in_work_hours (s : Schedule) (now : Z) :
  isCurrentlyInWorkHours s now = true
  <-> isDayEnabled s (today now) = true
      /\ (inject_Z (startHour s) <= timeOfDayHours now
          /\ timeOfDayHours now < inject_Z (endHour s))%Q.
Proof. apply isCurrentlyInWorkHours_iff. Qed.

(** C8: with all seven days off, the working hours of the month and the
    working days of the year are 0, and the earnings of the month, of the
    day and per second are the finite number 0. *)
Theorem all_days_off (s : Schedule) (now : Z) :
  allDaysOff s ->
  getTotalWorkingHoursThisMonth s now = 0
  /\ getTotalWorkingDaysPerYear s = 0
  /\ (forall annual, evalsTo (calculateEarnings s now annual) 0)
  /\ (forall annual, evalsTo (calculateDailyEarnings s now annual) 0)
  /\ evalsTo (earnedPerSecond s now) 0.
Proof.
  intros Hoff.
  pose proof (allDaysOff_month s Hoff now) as Hmonth.
  pose proof (allDaysOff_year s Hoff) as Hyear.
  split; [exact Hmonth|]. split; [exact Hyear|]. split; [|split].
  - intros annual. unfold calculateEarnings. cbv zeta.
    rewrite Hmonth. reflexivity.
  - intros annual. unfold calculateDailyEarnings. cbv zeta.
    rewrite (allDaysOff_disabled s Hoff). reflexivity.
  - apply (proj2 (earnedPerSecond_cases s now)). lia.
Qed.

Lemma all_days_off_witness :
  getTotalWorkingHoursThisMonth idleSchedule (wednesdayAt 14) = 0
  /\ getTotalWorkingDaysPerYear idleSchedule = 0
  /\ (forall annual,
        evalsTo (calculateEarnings idleSchedule (wednesdayAt 14) annual) 0)
  /\ (forall annual,
        evalsTo (calculateDailyEarnings idleSchedule (wednesdayAt 14) annual) 0)
  /\ evalsTo (earnedPerSecond idleSchedule (wednesdayAt 14)) 0.
Proof.
  apply (all_days_off idleSchedule (wednesdayAt 14)).
  intros day Hday. reflexivity.
Defined.

(** C9: with the inverted window 18 to 10 the daily working hours are -8,
    and at every clock reading the daily fraction is a finite number of
    [0,1] and today's earnings are finite. *)
Theorem inverted_window (s : Schedule) (now : Z) :
  startHour s = 18 -> endHour s = 10 ->
  getDailyWorkingHours s = -8
  /\ isFinite (dailyFraction s now) = true
  /\ (0 <= val (dailyFraction s now) <= 1)%Q
  /\ (forall annual, isFinite (calculateDailyEarnings s now annual) = true).
Proof.
  intros Hstart Hend.
  destruct (dailyFraction_range s now) as [fd [Ed [Rd _]]].
  split; [unfold getDailyWorkingHours; lia|].
  rewrite Ed. split; [reflexivity|]. split; [exact Rd|].
  intros annual.
  exact (evalsTo_isFinite _ _ (calculateDailyEarnings_fraction s now annual)).
Qed.

Lemma inverted_window_witness :
  getDailyWorkingHours invertedSchedule = -8
  /\ isFinite (dailyFraction invertedSchedule (wednesdayAt 19)) = true
  /\ (0 <= val (dailyFraction invertedSchedule (wednesdayAt 19)) <= 1)%Q
  /\ (forall annual,
        isFinite (calculateDailyEarnings invertedSchedule (wednesdayAt 19)
                                         annual) = true).
Proof.
  apply (inverted_window invertedSchedule (wednesdayAt 19)); reflexivity.
Defined.


End Properties.

(** ** Further properties of the code *)

Module Extras.

Import JSNum JSDate Engine Spec View JSNumFacts JSDateFacts EngineFacts.
Open Scope Z_scope.

(** *** The calendar *)

Ltac ifs :=
  repeat match goal with
  | |- context [?a <? ?b] => destruct (Z.ltb_spec a b); try lia
  | |- context [?a <=? ?b] => destruct (Z.leb_spec a b); try lia
  | H : context [?a <? ?b] |- _ => destruct (Z.ltb_spec a b); try lia
  | H : context [?a <=? ?b] |- _ => destruct (Z.leb_spec a b); try lia
  end.

Lemma monthLength_range y m : 1 <= m <= 12 -> 28 <= monthLength y m <= 31.
Proof.
  intros Hm. unfold monthLength, days_from_civil. cbv zeta.
  assert (Hc : m <= 11 \/ m = 12) by lia.
  destruct Hc as [Hc | ->].
  - rewrite (Z.div_small m 12), (Z.mod_small m 12) by lia.
    replace (y + 0) with y by lia.
    ifs; divmod; lia.
  - change (12 / 12) with 1. change (12 mod 12 + 1) with 1.
    ifs; divmod; lia.
Qed.

(** The date of a day number is a day of its month. *)
Lemma civil_from_days_valid z :
  let '(y, m, d) := civil_from_days z in d <= monthLength y m.
Proof.
  unfold civil_from_days. cbv zeta.
  set (z' := z + 719468).
  set (era := z' / 146097).
  set (doe := z' - era * 146097).
  assert (Hdoe : 0 <= doe <= 146096) by (subst doe era; divmod; lia).
  set (yoe := (doe - doe / 1460 + doe / 36524 - doe / 146096) / 365).
  assert (Hyoe : 0 <= yoe <= 399) by (subst yoe; divmod; lia).
  set (doy := doe - (365 * yoe + yoe / 4 - yoe / 100)).
  assert (Hdoy : 0 <= doy <= 365) by (subst doy yoe; divmod; lia).
  assert (Hleap : doy = 365 ->
                  (yoe + 1) mod 4 = 0 /\ ((yoe + 1) mod 100 <> 0 \/ yoe = 399))
    by (subst doy yoe; divmod; lia).
  set (mp := (5 * doy + 2) / 153).
  assert (Hmp : 0 <= mp <= 11) by (subst mp; divmod; lia).
  assert (Hlo : (153 * mp + 2) / 5 <= doy) by (subst mp; divmod; lia).
  assert (Hhi : doy < (153 * (mp + 1) + 2) / 5) by (subst mp; divmod; lia).
  clearbody mp. clearbody doy. clearbody yoe. clear Hdoe. clearbody doe.
  unfold monthLength, days_from_civil. cbv zeta.
  assert (Hc : mp <= 8 \/ mp = 9 \/ mp = 10 \/ mp = 11) by lia.
  destruct Hc as [Hc | [-> | [-> | ->]]].
  - destruct (Z.ltb_spec mp 10); [|lia].
    destruct (Z.leb_spec (mp + 3) 2); [lia|].
    rewrite (Z.div_small (mp + 3) 12), (Z.mod_small (mp + 3) 12) by lia.
    ifs. divmod; lia.
  - change (9 <? 10) with true. cbv iota.
    change (9 + 3) with 12. change (12 <=? 2) with false. cbv iota.
    change (12 / 12) with 1. change (12 mod 12 + 1) with 1.
    ifs. divmod; lia.
  - change (10 <? 10) with false. cbv iota.
    change (10 - 9) with 1. change (1 <=? 2) with true. cbv iota.
    change (1 / 12) with 0. change (1 mod 12 + 1) with 2.
    ifs. divmod; lia.
  - change (11 <? 10) with false. cbv iota.
    change (11 - 9) with 2. change (2 <=? 2) with true. cbv iota.
    change (2 / 12) with 0. change (2 mod 12 + 1) with 3.
    ifs. divmod; lia.
Qed.

(** Converting a calendar date to a day number and back is the identity. *)
Lemma civil_from_days_from_civil y m d :
  1 <= m <= 12 -> 1 <= d <= monthLength y m ->
  civil_from_days (days_from_civil y m d) = (y, m, d).
Proof.
  intros Hm Hd.
  set (y' := if m <=? 2 then y - 1 else y).
  set (mp := if 2 <? m then m - 3 else m + 9).
  set (era := y' / 400).
  set (yoe := y' - era * 400).
  set (doy := (153 * mp + 2) / 5 + d - 1).
  assert (Hmp : 0 <= mp <= 11) by (subst mp; ifs).
  assert (Hyoe : 0 <= yoe <= 399) by (subst yoe era; divmod; lia).
  assert (Hhi : doy < (153 * (mp + 1) + 2) / 5 /\ doy <= 365
                /\ (doy = 365 -> (yoe + 1) mod 4 = 0
                                 /\ ((yoe + 1) mod 100 <> 0 \/ yoe = 399))).
  { unfold monthLength, days_from_civil in Hd. cbv zeta in Hd.
    subst doy yoe era mp y'.
    assert (Hc : m = 1 \/ m = 2 \/ 3 <= m <= 11 \/ m = 12) by lia.
    destruct Hc as [-> | [-> | [Hc | ->]]].
    - change (1 / 12) with 0 in Hd. change (1 mod 12 + 1) with 2 in Hd.
      ifs. divmod; lia.
    - change (2 / 12) with 0 in Hd. change (2 mod 12 + 1) with 3 in Hd.
      ifs. divmod; lia.
    - rewrite (Z.div_small m 12), (Z.mod_small m 12) in Hd by lia.
      ifs. divmod; lia.
    - change (12 / 12) with 1 in Hd. change (12 mod 12 + 1) with 1 in Hd.
      ifs. divmod; lia. }
  destruct Hhi as [Hhi [Hdoy Hleap]].
  assert (Hdoy0 : (153 * mp + 2) / 5 <= doy) by (subst doy; lia).
  assert (Hback : (if (if mp <? 10 then mp + 3 else mp - 9) <=? 2
                   then y' + 1 else y') = y
                  /\ (if mp <? 10 then mp + 3 else mp - 9) = m).
  { subst mp y'. ifs. }
  destruct Hback as [Hy Hmm].
  assert (Hd' : doy - (153 * mp + 2) / 5 + 1 = d) by (subst doy; lia).
  unfold days_from_civil. cbv zeta.
  fold y'. fold mp. fold era. fold yoe.
  replace ((153 * mp + 2) / 5 + d - 1) with doy by reflexivity.
  clearbody doy. clearbody mp.
  set (doe := yoe * 365 + yoe / 4 - yoe / 100 + doy).
  assert (Hdoe : 0 <= doe <= 146096) by (subst doe; divmod; lia).
  assert (Hy2 : (doe - doe / 1460 + doe / 36524 - doe / 146096) / 365 = yoe)
    by (subst doe; clearbody yoe; divmod; lia).
  assert (Hmp2 : (5 * doy + 2) / 153 = mp) by (divmod; lia).
  unfold civil_from_days. cbv zeta.
  replace (era * 146097 + doe - 719468 + 719468) with (doe + era * 146097)
    by lia.
  rewrite Z.div_add by lia. rewrite (Z.div_small doe) by lia.
  replace (0 + era) with era by lia.
  replace (doe + era * 146097 - era * 146097) with doe by lia.
  rewrite Hy2.
  replace (doe - (365 * yoe + yoe / 4 - yoe / 100)) with doy
    by (subst doe; lia).
  rewrite Hmp2, Hd'.
  replace (yoe + era * 400) with y' by (subst yoe; lia).
  rewrite Hy, Hmm. reflexivity.
Qed.

Lemma getDate_valid (t : Z) :
  1 <= getDate t <= monthLength (getFullYear t) (getMonth t + 1).
Proof.
  pose proof (civil_from_days_valid (Day t)) as H.
  pose proof (getDate_range t) as Hr.
  unfold getFullYear, getMonth, getDate in *.
  destruct (civil_from_days (Day t)) as [[y m] d]. cbn [fst snd] in *.
  replace (m - 1 + 1) with m by lia. lia.
Qed.

(** The date of the last millisecond before the next month is the length
    of the month. *)
Lemma last_day_of_month (y month : Z) :
  y < 0 \/ 99 < y -> 0 <= month <= 11 ->
  getDate (newDay y (month + 1) 1 - 1) = monthLength y (month + 1).
Proof.
  intros Hy Hm.
  pose proof (monthLength_range y (month + 1) ltac:(lia)) as Hlen.
  rewrite newDay_eq, MakeFullYear_plain by exact Hy.
  unfold getDate.
  replace (Day (MakeDay y (month + 1) 1 * msPerDay - 1))
    with (MakeDay y (month + 1) 1 - 1)
    by (unfold Day, msPerDay; divmod; lia).
  replace (MakeDay y (month + 1) 1 - 1)
    with (days_from_civil y (month + 1) (monthLength y (month + 1)))
    by (rewrite (days_from_civil_date y (month + 1) (monthLength _ _));
        unfold MakeDay, monthLength; lia).
  rewrite civil_from_days_from_civil by lia. reflexivity.
Qed.

Lemma daysInMonth_length (now : Z) :
  plainYear now ->
  daysInMonth now = monthLength (getFullYear now) (getMonth now + 1).
Proof.
  intros Hy. unfold daysInMonth. cbv zeta.
  apply last_day_of_month; [exact Hy | apply getMonth_range].
Qed.

(** *** Arithmetic on plain numbers *)

Lemma ratio_unit (d l : Z) :
  0 <= d <= l -> 0 < l -> (0 <= inject_Z d / inject_Z l <= 1)%Q.
Proof.
  intros Hd Hl.
  assert (0 < inject_Z l)%Q as Hl' by (change 0%Q with (inject_Z 0); now rewrite <- Zlt_Qlt).
  split.
  - apply Qle_shift_div_l; [exact Hl'|]. rewrite Qmult_0_l.
    change 0%Q with (inject_Z 0). rewrite <- Zle_Qle. lia.
  - apply Qle_shift_div_r; [exact Hl'|]. rewrite Qmult_1_l.
    rewrite <- Zle_Qle. lia.
Qed.

Lemma ratio_positive (d l : Z) :
  0 < d -> 0 < l -> (0 < inject_Z d / inject_Z l)%Q.
Proof.
  intros Hd Hl. apply Qlt_shift_div_l.
  - change 0%Q with (inject_Z 0). now rewrite <- Zlt_Qlt.
  - rewrite Qmult_0_l. change 0%Q with (inject_Z 0). now rewrite <- Zlt_Qlt.
Qed.

Lemma ratio_at_least (d l m : Z) :
  1 <= d -> 0 < l <= m -> (1 # Z.to_pos m <= inject_Z d / inject_Z l)%Q.
Proof.
  intros Hd Hl.
  apply Qle_shift_div_l.
  - change 0%Q with (inject_Z 0). rewrite <- Zlt_Qlt. lia.
  - apply Qle_trans with 1%Q.
    + unfold Qle. cbn [Qnum Qden Qmult inject_Z].
      rewrite Pos.mul_1_r, Z.mul_1_l, Z.mul_1_l, Z2Pos.id by lia. lia.
    + change 1%Q with (inject_Z 1). rewrite <- Zle_Qle. lia.
Qed.

(** [toFixed(1)] of a percentage gives a text between 0.0 and 100.0. *)
Lemma toFixed1_percent (lo p : Q) :
  (0 <= lo)%Q -> (lo <= p <= 100)%Q ->
  exists n, toFixed1 (Fin p) = Some n
            /\ Qfloor (lo * 10 + (1 # 2)) <= n <= 1000.
Proof.
  intros Hlo [H0 H100]. unfold toFixed1.
  assert (Qle_bool 0 p = true) as -> by (apply Qle_bool_iff; lra).
  destruct (Qle_bool toFixedLimit p) eqn:E.
  { apply Qle_bool_iff in E. unfold toFixedLimit in E. lra. }
  eexists. split; [reflexivity|]. split.
  - apply Qfloor_resp_le. lra.
  - change 1000 with (Qfloor (1000 + (1 # 2))). apply Qfloor_resp_le. lra.
Qed.

Lemma scaled_by_fraction (r f : Q) :
  (0 <= r -> 0 <= f <= 1 -> 0 <= r * f <= r)%Q.
Proof.
  intros Hr [Hf0 Hf1]. split.
  - now apply Qmult_le_0_compat.
  - rewrite <- (Qmult_1_r r) at 2. rewrite !(Qmult_comm r).
    apply Qmult_le_compat_r; assumption.
Qed.

Lemma val_bounds (e : num) (q lo hi : Q) :
  evalsTo e q -> (lo <= q <= hi)%Q -> (lo <= val e <= hi)%Q.
Proof.
  intros He Hq. rewrite (evalsTo_val e q He). exact Hq.
Qed.

Lemma clampQ_low (x : Q) : (x <= 0)%Q -> (clampQ x == 0)%Q.
Proof.
  intros Hx. unfold clampQ. cbv zeta.
  destruct (Qle_bool 1 x) eqn:E1.
  - apply Qle_bool_iff in E1. lra.
  - destruct (Qle_bool 0 x) eqn:E2; [|reflexivity].
    apply Qle_bool_iff in E2. lra.
Qed.

Lemma clampQ_high (x : Q) : (1 <= x)%Q -> (clampQ x == 1)%Q.
Proof.
  intros Hx. unfold clampQ. cbv zeta.
  apply Qle_bool_iff in Hx. rewrite Hx. reflexivity.
Qed.

Lemma clampQ_inside (x : Q) : (0 <= x <= 1)%Q -> (clampQ x == x)%Q.
Proof.
  intros [H0 H1]. unfold clampQ. cbv zeta.
  destruct (Qle_bool 1 x) eqn:E1.
  - apply Qle_bool_iff in E1. change (Qle_bool 0 1) with true. cbv iota. lra.
  - apply Qle_bool_iff in H0. rewrite H0. reflexivity.
Qed.

Lemma clampQ_monotone (x y : Q) : (x <= y)%Q -> (clampQ x <= clampQ y)%Q.
Proof.
  intros Hxy.
  destruct (Qlt_le_dec x 0) as [Hx | Hx].
  - rewrite (clampQ_low x) by lra. apply clampQ_range.
  - destruct (Qlt_le_dec 1 y) as [Hy | Hy].
    + rewrite (clampQ_high y) by lra. apply clampQ_range.
    + rewrite (clampQ_inside x), (clampQ_inside y) by lra. exact Hxy.
Qed.


(** *** The day toggles *)

(** X1: toggling a day twice restores every flag, and the toggles of two
    days give the same flags in either order. *)
Theorem handleDayToggle_involution (prev : Z -> bool) (i j day : Z) :
  handleDayToggle (handleDayToggle prev i) i day = prev day
  /\ handleDayToggle (handleDayToggle prev i) j day
     = handleDayToggle (handleDayToggle prev j) i day.
Proof.
  unfold handleDayToggle. rewrite !Z.eqb_refl. split.
  - destruct (Z.eqb_spec day i) as [-> | Hne];
      [apply negb_involutive | reflexivity].
  - repeat match goal with
           | |- context [?a =? ?b] => destruct (Z.eqb_spec a b)
           end; subst; congruence.
Qed.

Lemma filter_toggle_length (prev : Z -> bool) (i : Z) (l : list Z) :
  NoDup l ->
  Z.of_nat (List.length (filter (handleDayToggle prev i) l))
  = Z.of_nat (List.length (filter prev l))
    + (if existsb (Z.eqb i) l then (if prev i then -1 else 1) else 0).
Proof.
  induction 1 as [|x l Hx Hl IH]; [reflexivity|].
  cbn [filter existsb]. unfold handleDayToggle at 1.
  destruct (Z.eqb_spec x i) as [-> | Hne].
  - rewrite Z.eqb_refl. cbn [orb].
    assert (existsb (Z.eqb i) l = false) as Hnot.
    { apply not_true_is_false. intros H'. apply existsb_exists in H'.
      destruct H' as [y [Hy Hiy]]. apply Z.eqb_eq in Hiy. subst y.
      contradiction. }
    rewrite Hnot in IH.
    destruct (prev i); cbn [negb List.length]; lia.
  - destruct (Z.eqb_spec i x) as [E | _]; [congruence|]. cbn [orb].
    destruct (prev x); cbn [List.length]; lia.
Qed.

(** X2: toggling one of the seven days changes the working days of the
    year by 52: up when the day was off, down when it was on. *)
Theorem toggle_changes_year_by_52 (s : Schedule) (dayIndex : Z) :
  0 <= dayIndex < 7 ->
  getTotalWorkingDaysPerYear
    (setDayToggles s (handleDayToggle (dayToggles s) dayIndex))
  = getTotalWorkingDaysPerYear s
    + (if dayToggles s dayIndex then -52 else 52).
Proof.
  intros Hday. rewrite !getTotalWorkingDaysPerYear_count.
  unfold workingDaysPerWeek, setDayToggles. cbn [dayToggles].
  rewrite filter_toggle_length.
  - assert (existsb (Z.eqb dayIndex) weekDays = true) as ->.
    { apply existsb_exists. exists dayIndex. split; [|apply Z.eqb_refl].
      unfold weekDays. apply in_map_iff. exists (Z.to_nat dayIndex).
      split; [lia|]. apply in_seq. lia. }
    destruct (dayToggles s dayIndex); lia.
  - unfold weekDays. cbn. repeat constructor; cbn; intuition discriminate.
Qed.

Lemma toggle_changes_year_by_52_witness :
  getTotalWorkingDaysPerYear
    (setDayToggles defaultSchedule
       (handleDayToggle (dayToggles defaultSchedule) 0))
  = getTotalWorkingDaysPerYear defaultSchedule
    + (if dayToggles defaultSchedule 0 then -52 else 52).
Proof.
  apply (toggle_changes_year_by_52 defaultSchedule 0). lia.
Defined.

(** *** The month heading *)

(** X3: the month name looked up for the heading is defined at every
    clock reading. *)
Theorem currentMonthName_defined (now : Z) :
  exists name, currentMonthName now = Some name.
Proof.
  unfold currentMonthName. pose proof (getMonth_range now) as H.
  destruct (Z.ltb_spec (getMonth now) 0); [lia|].
  destruct (nth_error monthNames (Z.to_nat (getMonth now))) eqn:E;
    [eauto|].
  apply nth_error_None in E. cbn in E. lia.
Qed.

(** *** The third decimal digit *)

(** X4: the third decimal shown after a non-negative amount is a digit
    0..9; after a negative amount it is never positive and may be negative
    (between -9 and 0). *)
Theorem thirdDecimal_range (amount : Q) :
  ((0 <= amount)%Q -> 0 <= thirdDecimal amount <= 9)
  /\ ((amount <= 0)%Q -> -9 <= thirdDecimal amount <= 0).
Proof.
  unfold thirdDecimal, mathRound. split; intros H.
  - assert (0 <= Qfloor (amount * 1000 + (1 # 2))) as Hr.
    { change 0 with (Qfloor 0). apply Qfloor_resp_le. lra. }
    revert Hr. generalize (Qfloor (amount * 1000 + (1 # 2))). intros r Hr.
    Z.quot_rem_to_equations. lia.
  - assert (Qfloor (amount * 1000 + (1 # 2)) <= 0) as Hr.
    { change 0 with (Qfloor (1 # 2)). apply Qfloor_resp_le. lra. }
    revert Hr. generalize (Qfloor (amount * 1000 + (1 # 2))). intros r Hr.
    Z.quot_rem_to_equations. lia.
Qed.

Lemma thirdDecimal_range_witness :
  0 <= thirdDecimal (12346 # 10000) <= 9
  /\ -9 <= thirdDecimal (- (12346 # 10000)) <= 0.
Proof.
  split.
  - apply (proj1 (thirdDecimal_range (12346 # 10000))). discriminate.
  - apply (proj2 (thirdDecimal_range (- (12346 # 10000)))). discriminate.
Defined.

(** *** Bounds on the earnings *)

Lemma dailyRate_nonneg (s : Schedule) (annual : Q) :
  (0 <= annual)%Q -> (0 <= dailyRate s annual)%Q.
Proof.
  intros Ha. unfold dailyRate.
  destruct (Z.ltb_spec 0 (getTotalWorkingDaysPerYear s)); [|apply Qle_refl].
  apply Qle_shift_div_l.
  - change 0%Q with (inject_Z 0). now rewrite <- Zlt_Qlt.
  - now rewrite Qmult_0_l.
Qed.

Lemma twelfth_nonneg (a : Q) : (0 <= a -> 0 <= a / 12)%Q.
Proof. intros H. unfold Qdiv. change (/ 12)%Q with (1 # 12)%Q. lra. Qed.

(** X5: with a non-negative salary the earnings of the month are between
    0 and the monthly salary, and the earnings of the day between 0 and
    the daily rate. *)
Theorem earnings_bounded (s : Schedule) (now : Z) (annual : Q) :
  (0 <= annual)%Q ->
  (0 <= val (calculateEarnings s now annual) <= annual / 12)%Q
  /\ (0 <= val (calculateDailyEarnings s now annual) <= dailyRate s annual)%Q.
Proof.
  intros Ha.
  destruct (monthlyFraction_range s now) as [fm [Em [Rm _]]].
  destruct (dailyFraction_range s now) as [fd [Ed [Rd _]]].
  pose proof (calculateEarnings_fraction s now annual) as Hm.
  pose proof (calculateDailyEarnings_fraction s now annual) as Hd.
  rewrite Em in Hm. rewrite Ed in Hd. cbn [val] in Hm, Hd.
  exact (conj
    (val_bounds _ _ _ _ Hm
       (scaled_by_fraction _ _ (twelfth_nonneg _ Ha) Rm))
    (val_bounds _ _ _ _ Hd
       (scaled_by_fraction _ _ (dailyRate_nonneg s annual Ha) Rd))).
Qed.

Lemma earnings_bounded_witness :
  (0 <= val (calculateEarnings defaultSchedule (wednesdayAt 14) 30000)
   <= 30000 / 12)%Q
  /\ (0 <= val (calculateDailyEarnings defaultSchedule (wednesdayAt 14) 30000)
      <= dailyRate defaultSchedule 30000)%Q.
Proof.
  apply (earnings_bounded defaultSchedule (wednesdayAt 14) 30000).
  discriminate.
Defined.

(** *** Today and the clock reading *)

Lemma time_within_day (now : Z) :
  0 <= TimeWithinDay now < msPerDay
  /\ getHours now = TimeWithinDay now / msPerHour
  /\ 0 <= getMinutes now < 60.
Proof.
  unfold TimeWithinDay, getHours, getMinutes, msPerDay, msPerHour, msPerMinute.
  divmod. lia.
Qed.



Lemma hours_minutes_ge (h m x : Z) :
  0 <= m < 60 ->
  (inject_Z x <= inject_Z h + inject_Z m / 60)%Q <-> x <= h.
Proof.
  intros Hm.
  assert (0 <= inject_Z m < 60)%Q as Hq.
  { split.
    - change 0%Q with (inject_Z 0). rewrite <- Zle_Qle. lia.
    - change 60%Q with (inject_Z 60). rewrite <- Zlt_Qlt. lia. }
  unfold Qdiv. change (/ 60)%Q with (1 # 60)%Q.
  split; intros H.
  - assert (inject_Z x < inject_Z (h + 1))%Q as H'
      by (rewrite inject_Z_plus; change (inject_Z 1) with 1%Q; lra).
    rewrite <- Zlt_Qlt in H'. lia.
  - rewrite Zle_Qle in H. lra.
Qed.

Lemma hours_minutes_lt (h m x : Z) :
  0 <= m < 60 ->
  (inject_Z h + inject_Z m / 60 < inject_Z x)%Q <-> h < x.
Proof.
  intros Hm.
  assert (0 <= inject_Z m < 60)%Q as Hq.
  { split.
    - change 0%Q with (inject_Z 0). rewrite <- Zle_Qle. lia.
    - change 60%Q with (inject_Z 60). rewrite <- Zlt_Qlt. lia. }
  unfold Qdiv. change (/ 60)%Q with (1 # 60)%Q.
  split; intros H.
  - rewrite Zlt_Qlt. lra.
  - assert (inject_Z (h + 1) <= inject_Z x)%Q as H'
      by (rewrite <- Zle_Qle; lia).
    rewrite inject_Z_plus in H'. change (inject_Z 1) with 1%Q in H'. lra.
Qed.

Lemma window_by_hours (T now h x : Z) :
  now = T + TimeWithinDay now -> h = TimeWithinDay now / msPerHour ->
  (T + x * msPerHour <= now <-> x <= h)
  /\ (now < T + x * msPerHour <-> h < x).
Proof.
  intros Hnow Hh. revert Hnow Hh.
  generalize (TimeWithinDay now). unfold msPerHour. intros w Hnow Hh.
  divmod. nia.
Qed.

(** X7: outside the years 0..99, the work-hours flag is on exactly when
    today is a working day and the clock reading is between the start
    boundary (included) and the end boundary (excluded) of the accrual. *)
Theorem work_hours_flag_is_window (s : Schedule) (now : Z) :
  plainYear now ->
  isCurrentlyInWorkHours s now = true
  <-> isDayEnabled s (today now) = true
      /\ startBoundary s now <= now < endBoundary s now.
Proof.
  intros Hy.
  pose proof (today_time now Hy) as Hnow.
  pose proof (time_within_day now) as [_ [Hh Hm]].
  rewrite (startBoundary_eq s now), (endBoundary_eq s now).
  pose proof (window_by_hours (today now) now (getHours now) (startHour s)
                Hnow Hh) as [Hs _].
  pose proof (window_by_hours (today now) now (getHours now) (endHour s)
                Hnow Hh) as [_ He].
  rewrite Hs, He.
  rewrite (isCurrentlyInWorkHours_iff s now). unfold timeOfDayHours.
  rewrite (hours_minutes_ge _ _ (startHour s) Hm).
  rewrite (hours_minutes_lt _ _ (endHour s) Hm).
  reflexivity.
Qed.

Lemma work_hours_flag_is_window_witness :
  isCurrentlyInWorkHours defaultSchedule (wednesdayAt 14) = true
  <-> isDayEnabled defaultSchedule (today (wednesdayAt 14)) = true
      /\ startBoundary defaultSchedule (wednesdayAt 14) <= wednesdayAt 14
         < endBoundary defaultSchedule (wednesdayAt 14).
Proof.
  apply (work_hours_flag_is_window defaultSchedule (wednesdayAt 14)).
  right. vm_compute. reflexivity.
Defined.

(** *** Progress of the day and of the month *)



Lemma percent_of_fraction (r : Q) :
  (0 <= r <= 1 -> 0 <= r * inject_Z 100 <= 100)%Q.
Proof. change (inject_Z 100) with 100%Q. intros H. lra. Qed.

Lemma percent_at_least (r : Q) :
  (1 # 31 <= r -> 100 # 31 <= r * inject_Z 100)%Q.
Proof. change (inject_Z 100) with 100%Q. intros H. lra. Qed.


(** X9: outside the years 0..99, the month has 28 to 31 days, the day of
    the month is one of them, and the progress of the month is a text
    between 3.2 and 100.0. *)
Theorem month_progress_bounded (now : Z) :
  plainYear now ->
  28 <= daysInMonth now <= 31
  /\ 1 <= getDate now <= daysInMonth now
  /\ exists n, percentComplete now = Some n /\ 32 <= n <= 1000.
Proof.
  intros Hy.
  pose proof (getDate_valid now) as Hd.
  pose proof (getMonth_range now) as Hm.
  pose proof (monthLength_range (getFullYear now) (getMonth now + 1)
                ltac:(lia)) as Hlen.
  rewrite <- (daysInMonth_length now Hy) in Hd, Hlen.
  split; [exact Hlen|]. split; [exact Hd|].
  unfold percentComplete. cbv zeta.
  revert Hd Hlen. generalize (daysInMonth now), (getDate now).
  intros l d Hd Hlen.
  rewrite ndiv_ofZ_ofZ by lia. cbn [nmul ofZ].
  pose proof (ratio_unit d l ltac:(lia) ltac:(lia)) as Hr.
  pose proof (ratio_at_least d l 31 ltac:(lia) ltac:(lia)) as Hp.
  change (Z.to_pos 31) with 31%positive in Hp.
  pose proof (percent_of_fraction _ Hr) as Hq.
  pose proof (percent_at_least _ Hp) as Hq'.
  destruct (toFixed1_percent (100 # 31) _ ltac:(discriminate)
              (conj Hq' (proj2 Hq))) as [n [En Rn]].
  exists n. split; [exact En|].
  change (Qfloor ((100 # 31) * 10 + (1 # 2))) with 32 in Rn. exact Rn.
Qed.

Lemma month_progress_bounded_witness :
  28 <= daysInMonth (wednesdayAt 14) <= 31
  /\ 1 <= getDate (wednesdayAt 14) <= daysInMonth (wednesdayAt 14)
  /\ exists n, percentComplete (wednesdayAt 14) = Some n /\ 32 <= n <= 1000.
Proof.
  apply (month_progress_bounded (wednesdayAt 14)).
  right. vm_compute. reflexivity.
Defined.

(** *** The pay of a day at the edges of the window *)




(** Today's earnings from the value of the hours elapsed today. *)
Lemma calculateDailyEarnings_clamp (s : Schedule) (now : Z) (annual q : Q) :
  isDayEnabled s (today now) = true -> getDailyWorkingHours s <> 0 ->
  evalsTo (getWorkingHoursSoFarToday s now) q ->
  exists e, (e == q)%Q
    /\ evalsTo (calculateDailyEarnings s now annual)
               (dailyRate s annual
                * clampQ (e / inject_Z (getDailyWorkingHours s))).
Proof.
  intros Hon Hd Hq.
  pose proof (calculateDailyEarnings_fraction s now annual) as H.
  revert H. unfold dailyFraction. rewrite Hon. cbn [negb].
  rewrite orb_false_r.
  destruct (Z.eqb_spec (getDailyWorkingHours s) 0); [contradiction|].
  destruct (evalsTo_inv _ _ Hq) as [e [-> He]].
  rewrite ndiv_Fin_ofZ, clamp01_Fin by assumption. cbn [val].
  intros H. exists e. exact (conj He H).
Qed.







(** X12: with a window of length zero ([startHour = endHour]) nothing
    accrues: the earnings of the month, of the day and per second are 0,
    the progress of the day is 0 and the work-hours flag is never on. *)
Theorem empty_window (s : Schedule) (now : Z) :
  startHour s = endHour s ->
  (forall annual, evalsTo (calculateEarnings s now annual) 0)
  /\ (forall annual, evalsTo (calculateDailyEarnings s now annual) 0)
  /\ evalsTo (earnedPerSecond s now) 0
  /\ todayPercentComplete s now = Number (ofZ 0)
  /\ isCurrentlyInWorkHours s now = false.
Proof.
  intros Hwin.
  assert (getDailyWorkingHours s = 0) as Hd
    by (unfold getDailyWorkingHours; lia).
  assert (getTotalWorkingHoursThisMonth s now = 0) as Ht
    by (rewrite getTotalWorkingHoursThisMonth_count, Hd; lia).
  refine (conj _ (conj _ (conj _ (conj _ _)))).
  - intros annual. unfold calculateEarnings. cbv zeta. rewrite Ht.
    reflexivity.
  - intros annual. unfold calculateDailyEarnings. cbv zeta. rewrite Hd.
    destruct (negb _); reflexivity.
  - apply (proj2 (earnedPerSecond_cases s now)). lia.
  - unfold todayPercentComplete. cbv zeta. rewrite Hd.
    destruct (isDayEnabled s (today now)); reflexivity.
  - apply not_true_is_false. intros H.
    apply (isCurrentlyInWorkHours_iff s now) in H.
    destruct H as [_ [H1 H2]]. rewrite Hwin in H1.
    revert H1 H2. generalize (timeOfDayHours now), (inject_Z (endHour s)).
    intros x y H1 H2. lra.
Qed.

Lemma empty_window_witness :
  (forall annual,
      evalsTo (calculateEarnings
                 (mkSchedule defaultToggles 30000 9 9 GBP) (wednesdayAt 9)
                 annual) 0)
  /\ (forall annual,
        evalsTo (calculateDailyEarnings
                   (mkSchedule defaultToggles 30000 9 9 GBP) (wednesdayAt 9)
                   annual) 0)
  /\ evalsTo (earnedPerSecond
                (mkSchedule defaultToggles 30000 9 9 GBP) (wednesdayAt 9)) 0
  /\ todayPercentComplete
       (mkSchedule defaultToggles 30000 9 9 GBP) (wednesdayAt 9)
     = Number (ofZ 0)
  /\ isCurrentlyInWorkHours
       (mkSchedule defaultToggles 30000 9 9 GBP) (wednesdayAt 9) = false.
Proof.
  apply (empty_window (mkSchedule defaultToggles 30000 9 9 GBP)
           (wednesdayAt 9)).
  reflexivity.
Defined.

(** *** The hours of the month *)





Lemma daysUpTo_split (a b : Z) :
  0 <= a <= b ->
  daysUpTo b
  = daysUpTo a ++ map Z.of_nat (seq (1 + Z.to_nat a) (Z.to_nat (b - a))).
Proof.
  intros H. unfold daysUpTo. rewrite <- map_app, <- seq_app.
  do 2 f_equal. lia.
Qed.




Section MonthHours.

Variable s : Schedule.
Variable now : Z.



End MonthHours.



(** *** The counter of the month *)











(** *** The counter through the day *)





Lemma vals_le (c1 c2 : num) (q1 q2 : Q) :
  evalsTo c1 q1 -> evalsTo c2 q2 -> (q1 <= q2)%Q -> (val c1 <= val c2)%Q.
Proof.
  intros H1 H2 H. rewrite (evalsTo_val _ _ H1), (evalsTo_val _ _ H2). exact H.
Qed.














(** *** The first and the last day of the month *)






(** *** The counter of the day *)

Lemma day_value_le (r e1 e2 : Q) (d : Z) :
  (0 <= r)%Q -> 0 < d -> (e1 <= e2)%Q ->
  (r * clampQ (e1 / inject_Z d) <= r * clampQ (e2 / inject_Z d))%Q.
Proof.
  intros Hr Hd He.
  assert (clampQ (e1 / inject_Z d) <= clampQ (e2 / inject_Z d))%Q as Hc.
  { apply clampQ_monotone. apply Qmult_le_compat_r; [exact He|].
    apply Qinv_le_0_compat. change 0%Q with (inject_Z 0).
    rewrite <- Zle_Qle. lia. }
  rewrite !(Qmult_comm r). apply Qmult_le_compat_r; assumption.
Qed.

Lemma values_le (e1 e2 q1 q2 : Q) :
  (e1 == q1 -> e2 == q2 -> q1 <= q2 -> e1 <= e2)%Q.
Proof. intros -> ->. exact (fun H => H). Qed.

Lemma calculateDailyEarnings_off (s : Schedule) (now : Z) (annual : Q) :
  isDayEnabled s (today now) = false \/ getDailyWorkingHours s = 0 ->
  evalsTo (calculateDailyEarnings s now annual) 0.
Proof.
  intros H. unfold calculateDailyEarnings. cbv zeta.
  destruct (isDayEnabled s (today now)); cbn [negb]; [|reflexivity].
  destruct H as [H | H]; [discriminate|]. rewrite H. reflexivity.
Qed.

(** X18: with a window that is not inverted and a non-negative salary,
    today's earnings never go down as the clock advances through one
    day. *)
Theorem daily_earnings_monotone (s : Schedule) (now1 now2 : Z) (annual : Q) :
  startHour s <= endHour s -> (0 <= annual)%Q ->
  Day now1 = Day now2 -> now1 <= now2 ->
  (val (calculateDailyEarnings s now1 annual)
   <= val (calculateDailyEarnings s now2 annual))%Q.
Proof.
  intros Hwin Ha Hday Hle.
  pose proof (today_same_day now1 now2 Hday) as Htoday.
  destruct (isDayEnabled s (today now1)) eqn:Hon.
  2: { refine (vals_le _ _ _ _
                 (calculateDailyEarnings_off s now1 annual (or_introl Hon))
                 (calculateDailyEarnings_off s now2 annual (or_introl _))
                 (Qle_refl 0)).
       now rewrite <- Htoday. }
  destruct (Z.eq_dec (getDailyWorkingHours s) 0) as [Hz | Hnz].
  { exact (vals_le _ _ _ _
             (calculateDailyEarnings_off s now1 annual (or_intror Hz))
             (calculateDailyEarnings_off s now2 annual (or_intror Hz))
             (Qle_refl 0)). }
  assert (isDayEnabled s (today now2) = true) as Hon2 by now rewrite <- Htoday.
  destruct (calculateDailyEarnings_clamp s now1 annual _ Hon Hnz
              (getWorkingHoursSoFarToday_ms s now1)) as [e1 [He1 H1]].
  destruct (calculateDailyEarnings_clamp s now2 annual _ Hon2 Hnz
              (getWorkingHoursSoFarToday_ms s now2)) as [e2 [He2 H2]].
  refine (vals_le _ _ _ _ H1 H2
            (day_value_le _ _ _ _ (dailyRate_nonneg s annual Ha) _
               (values_le _ _ _ _ He1 He2
                  (hours_of_ms_le _ _
                     (elapsedMsToday_monotone s now1 now2 Hwin Htoday Hle))))).
  unfold getDailyWorkingHours in *. lia.
Qed.

Lemma daily_earnings_monotone_witness :
  (val (calculateDailyEarnings defaultSchedule (wednesdayAt 12) 30000)
   <= val (calculateDailyEarnings defaultSchedule (wednesdayAt 14) 30000))%Q.
Proof.
  refine (daily_earnings_monotone defaultSchedule
            (wednesdayAt 12) (wednesdayAt 14) 30000 _ _ _ _).
  - vm_compute. discriminate.
  - discriminate.
  - vm_compute. reflexivity.
  - vm_compute. discriminate.
Defined.

(** *** Weekdays in a month *)

Lemma filter_map_length {A B : Type} (f : B -> bool) (g : A -> B) (l : list A) :
  List.length (filter f (map g l))
  = List.length (filter (fun x => f (g x)) l).
Proof.
  induction l as [|x l IH]; cbn [map filter]; [reflexivity|].
  destruct (f (g x)); cbn [List.length]; now rewrite IH.
Qed.

Lemma filter_prefix_length {A : Type} (f : A -> bool) (l1 l2 : list A) :
  (List.length (filter f l1) <= List.length (filter f (l1 ++ l2)))%nat.
Proof. rewrite filter_app, length_app. lia. Qed.

(** Seven days in a row meet every weekday once. *)
Lemma week_count (t : Z -> bool) (c : Z) (a : nat) :
  List.length (filter (fun day => t ((c + day) mod 7))
                 (map Z.of_nat (seq a 7)))
  = List.length (filter t weekDays).
Proof.
  change (seq a 7) with (map (fun i => (i + a)%nat) (seq 0 7)).
  rewrite map_map, filter_map_length.
  set (r := (c + Z.of_nat a) mod 7).
  rewrite (filter_ext
             (fun i => t ((c + Z.of_nat (i + a)) mod 7))
             (fun i => t ((r + Z.of_nat i) mod 7))).
  2: { intros i. unfold r. rewrite Zplus_mod_idemp_l. do 2 f_equal. lia. }
  assert (0 <= r < 7) as Hr by (apply Z.mod_pos_bound; lia).
  clearbody r.
  assert (r = 0 \/ r = 1 \/ r = 2 \/ r = 3 \/ r = 4 \/ r = 5 \/ r = 6)
    as Hc by lia.
  unfold weekDays.
  destruct Hc as [-> | [-> | [-> | [-> | [-> | [-> | ->]]]]]];
    cbv [seq map filter Z.add Z.of_nat Pos.of_succ_nat Pos.succ Z.modulo
         Z.div_eucl Z.pos_div_eucl Pos.add Pos.add_carry Z.mul Pos.mul
         Z.leb Z.ltb Z.compare Pos.compare Pos.compare_cont Z.sub Z.opp
         Z.pos_sub Z.succ_double Z.pred_double Z.double Pos.pred_double
         Pos.succ snd fst CompOpp];
    destruct (t 0), (t 1), (t 2), (t 3), (t 4), (t 5), (t 6); reflexivity.
Qed.

Lemma month_count (t : Z -> bool) (c L : Z) :
  28 <= L <= 31 ->
  let n := Z.of_nat (List.length
             (filter (fun day => t ((c + day) mod 7)) (daysUpTo L))) in
  let k := Z.of_nat (List.length (filter t weekDays)) in
  4 * k <= n <= 5 * k.
Proof.
  intros HL n k. subst n.
  rewrite (daysUpTo_split 28 L) by lia.
  change (daysUpTo 28)
    with (map Z.of_nat (seq 1 7) ++ map Z.of_nat (seq 8 7)
          ++ map Z.of_nat (seq 15 7) ++ map Z.of_nat (seq 22 7)).
  rewrite !filter_app, !length_app, !(week_count t c).
  fold k.
  pose proof (filter_prefix_length (fun day => t ((c + day) mod 7))
                (map Z.of_nat (seq 29 (Z.to_nat (L - 28))))
                (map Z.of_nat (seq (29 + Z.to_nat (L - 28))
                                 (7 - Z.to_nat (L - 28))))) as Hp.
  rewrite <- map_app, <- seq_app in Hp.
  replace (Z.to_nat (L - 28) + (7 - Z.to_nat (L - 28)))%nat with 7%nat in Hp
    by lia.
  rewrite (week_count t c 29) in Hp. fold k in Hp.
  change (1 + Z.to_nat 28)%nat with 29%nat.
  lia.
Qed.

(** X19: in a month of a year outside 0..99 every weekday comes 4 or 5
    times, so the hours of the month are the daily hours times a number
    of working days between 4 and 5 times the enabled days of the
    week. *)
Theorem weekdays_per_month (s : Schedule) (now : Z) :
  plainYear now ->
  getTotalWorkingHoursThisMonth s now
  = getDailyWorkingHours s * workingDaysThisMonth s now
  /\ 4 * workingDaysPerWeek s <= workingDaysThisMonth s now
     <= 5 * workingDaysPerWeek s.
Proof.
  intros Hy. split; [exact (getTotalWorkingHoursThisMonth_count s now)|].
  unfold workingDaysThisMonth, workingDaysPerWeek.
  rewrite (filter_ext
             (fun day =>
                isDayEnabled s (newDay (getFullYear now) (getMonth now) day))
             (fun day =>
                dayToggles s ((getDay now - getDate now + day) mod 7))).
  2: { intros day. unfold isDayEnabled. rewrite (getDay_loop now day Hy).
       do 2 f_equal. lia. }
  apply (month_count (dayToggles s) (getDay now - getDate now)).
  rewrite (daysInMonth_length now Hy).
  apply monthLength_range.
  pose proof (getMonth_range now). lia.
Qed.

Lemma weekdays_per_month_witness :
  getTotalWorkingHoursThisMonth defaultSchedule (wednesdayAt 12)
  = getDailyWorkingHours defaultSchedule
    * workingDaysThisMonth defaultSchedule (wednesdayAt 12)
  /\ 4 * workingDaysPerWeek defaultSchedule
     <= workingDaysThisMonth defaultSchedule (wednesdayAt 12)
     <= 5 * workingDaysPerWeek defaultSchedule.
Proof.
  apply (weekdays_per_month defaultSchedule (wednesdayAt 12)).
  right. vm_compute. reflexivity.
Defined.

End Extras.
